(** * mopidy-qobuz: the track cache ([mopidy_qobuz/cache.py])

    A shallow embedding of [FileCacheStorage] and [TrackUrlCache].

    The Python code talks to a file system, a clock, an HTTP client and a
    handful of library functions (md5, json, datetime).  The embedding keeps
    the code of [cache.py] as monadic programs over an explicit [world]; the
    library functions it calls are the fields of the class [PyRuntime]. *)

From Stdlib Require Import ZArith Lia Ascii String.
From stdpp Require Import base option list strings pretty gmap fin_maps sorting.

Open Scope string_scope.
Open Scope list_scope.
Open Scope Z_scope.

(** ** Python values *)

(** The values a payload dictionary ([Dict[str, Any]]) can hold.  [PObject]
    stands for any object the json encoder has no rule for. *)
#[local] Set Warnings "-register-all".
Inductive pyval : Type :=
| PNone
| PBool (b : bool)
| PInt (n : Z)
| PStr (s : string)
| PList (xs : list pyval)
| PDict (kvs : list (string * pyval))
| PObject (cls : string).

(** A [dict] with string keys, in insertion order. *)
Abbreviation pydict := (list (string * pyval)).

(** [d.get(k)] *)
Fixpoint dict_get (k : string) (d : pydict) : option pyval :=
  match d with
  | [] => None
  | (k', v) :: rest => if String.eqb k k' then Some v else dict_get k rest
  end.

(** [k in d] *)
Definition dict_in (k : string) (d : pydict) : bool :=
  match dict_get k d with Some _ => true | None => false end.

(** [d[k] = v]: an existing key keeps its position, a new key goes last. *)
Fixpoint dict_set (k : string) (v : pyval) (d : pydict) : pydict :=
  match d with
  | [] => [(k, v)]
  | (k', v') :: rest =>
      if String.eqb k k' then (k', v) :: rest else (k', v') :: dict_set k v rest
  end.

(** [{**a, **b}]: the items of [b] written into [a], left to right. *)
Definition dict_update (a b : pydict) : pydict :=
  fold_left (fun acc kv => dict_set (fst kv) (snd kv) acc) b a.

(** ** Exceptions and the state-and-exception monad *)

Inductive exn : Type :=
| FileNotFoundError
| ValueError          (* includes json.JSONDecodeError, UnicodeDecodeError *)
| TypeError
| OverflowError
| AttributeError
| KeyError
| NameError (name : string)
| HTTPError           (* requests.exceptions.HTTPError *)
| ConnectionError     (* requests.exceptions.ConnectionError *)
| Timeout             (* requests.exceptions.Timeout *)
| QueueEmpty.         (* queue.Empty *)

(** [isinstance(e, requests.RequestException)] *)
Definition is_RequestException (e : exn) : bool :=
  match e with
  | HTTPError | ConnectionError | Timeout => true
  | _ => false
  end.

Inductive result (A : Type) : Type :=
| Ok (a : A)
| Raise (e : exn).
Arguments Ok {A} a.
Arguments Raise {A} e.

(** What [requests.get] does on one call. *)
Inductive http_result : Type :=
| Respond (status_code : Z) (content : string)
| Fail (e : exn).

(** The world the cache runs in.

    - [dir]: the cache directory; [None] when it does not exist, otherwise
      the regular files directly inside it, by path, with their bytes.
    - [clock], [ticks]: [datetime.now()] returns [clock ticks] (microseconds
      since [datetime.min]) and moves to the next reading.
    - [transport], [requested]: the [n]-th call of [requests.get] for [url]
      does [transport n url]; [requested] lists the urls asked for so far.
    - [removed]: the paths [os.remove] has deleted so far, oldest first. *)
Record world : Type := World {
  dir : option (gmap string string);
  clock : nat -> Z;
  ticks : nat;
  transport : nat -> string -> http_result;
  requested : list string;
  removed : list string
}.

Definition set_dir (d : option (gmap string string)) (w : world) : world :=
  World d (clock w) (ticks w) (transport w) (requested w) (removed w).

Definition M (A : Type) : Type := world -> world * result A.

Definition ret {A} (a : A) : M A := fun w => (w, Ok a).

Definition raise {A} (e : exn) : M A := fun w => (w, Raise e).

Definition bind {A B} (m : M A) (f : A -> M B) : M B :=
  fun w =>
    match m w with
    | (w', Ok a) => f a w'
    | (w', Raise e) => (w', Raise e)
    end.

(** [try: m  except Exception as e: h e].  Whatever [m] did to the world
    before it raised stays done. *)
Definition try_except {A} (m : M A) (h : exn -> M A) : M A :=
  fun w =>
    match m w with
    | (w', Ok a) => (w', Ok a)
    | (w', Raise e) => h e w'
    end.

(** Run [m] and hand its outcome, value or exception, to the caller. *)
Definition attempt {A} (m : M A) : M (result A) :=
  fun w => let '(w', r) := m w in (w', Ok r).

Declare Scope py_scope.
Delimit Scope py_scope with py.
Notation "x <- m ;; k" := (bind m (fun x => k))
  (at level 100, m at next level, right associativity) : py_scope.
Notation "m ;;; k" := (bind m (fun _ => k))
  (at level 100, right associativity) : py_scope.
Open Scope py_scope.

(** ** The operating system, the clock and the network *)

Record DirEntry : Type := { entry_path : string; entry_size : Z }.

(** [len] of a file's bytes *)
Definition st_size (bytes : string) : Z := Z.of_nat (String.length bytes).

(** The entries of a directory, each with its [stat().st_size]. *)
Definition dir_entries (files : gmap string string) : list DirEntry :=
  map (fun pc => {| entry_path := fst pc; entry_size := st_size (snd pc) |})
      (map_to_list files).

(** [os.scandir(d)], restricted to the entries with [is_file()]. *)
Definition os_scandir : M (list DirEntry) :=
  fun w =>
    match dir w with
    | None => (w, Raise FileNotFoundError)
    | Some files => (w, Ok (dir_entries files))
    end.

(** [os.path.exists(path)] *)
Definition os_path_exists (path : string) : M bool :=
  fun w =>
    match dir w with
    | None => (w, Ok false)
    | Some files => (w, Ok (bool_decide (is_Some (files !! path))))
    end.

(** [os.remove(path)] *)
Definition os_remove (path : string) : M unit :=
  fun w =>
    match dir w with
    | None => (w, Raise FileNotFoundError)
    | Some files =>
        match files !! path with
        | None => (w, Raise FileNotFoundError)
        | Some _ =>
            (World (Some (delete path files)) (clock w) (ticks w) (transport w)
                   (requested w) (removed w ++ [path]), Ok tt)
        end
    end.

(** [os.makedirs(d, exist_ok=True)] *)
Definition os_makedirs : M unit :=
  fun w =>
    match dir w with
    | None => (set_dir (Some ∅) w, Ok tt)
    | Some _ => (w, Ok tt)
    end.

(** [shutil.rmtree(d)] *)
Definition shutil_rmtree : M unit :=
  fun w =>
    match dir w with
    | None => (w, Raise FileNotFoundError)
    | Some _ => (set_dir None w, Ok tt)
    end.

(** [open(path, "r").read()] *)
Definition read_file (path : string) : M string :=
  fun w =>
    match dir w with
    | None => (w, Raise FileNotFoundError)
    | Some files =>
        match files !! path with
        | None => (w, Raise FileNotFoundError)
        | Some bytes => (w, Ok bytes)
        end
    end.

(** [open(path, "w")] and [open(path, "wb")]: the file is created, or
    emptied when it exists. *)
Definition open_truncate (path : string) : M unit :=
  fun w =>
    match dir w with
    | None => (w, Raise FileNotFoundError)
    | Some files => (set_dir (Some (<[path := ""]> files)) w, Ok tt)
    end.

(** [f.write(s)] on a file opened by [open_truncate]; what was written is
    in the file once the [with] block is left, also when it is left by an
    exception. *)
Definition file_write (path : string) (s : string) : M unit :=
  fun w =>
    match dir w with
    | None => (w, Raise FileNotFoundError)
    | Some files =>
        match files !! path with
        | None => (w, Raise FileNotFoundError)
        | Some bytes => (set_dir (Some (<[path := bytes +:+ s]> files)) w, Ok tt)
        end
    end.

(** [datetime.now()] *)
Definition datetime_now : M Z :=
  fun w =>
    (World (dir w) (clock w) (S (ticks w)) (transport w) (requested w) (removed w),
     Ok (clock w (ticks w))).

(** The value of [timedelta(days=n)], in microseconds. *)
Definition timedelta_days (n : Z) : Z := n * 86400000000.

(** [timedelta.max.days]: the most days, in either direction, that a
    [timedelta] holds. *)
Definition timedelta_max_days : Z := 999999999.

(** [timedelta(days=n)]: beyond [timedelta_max_days] the constructor
    raises [OverflowError]. *)
Definition timedelta (n : Z) : M Z :=
  if Z.abs n >? timedelta_max_days then raise OverflowError else ret (timedelta_days n).

(** [datetime.min] *)
Definition datetime_min : Z := 0.

Record Response : Type := { status_code : Z; content : string }.

(** [requests.get(url, timeout=t)] *)
Definition requests_get (url : string) (timeout : Z) : M Response :=
  fun w =>
    let w' := World (dir w) (clock w) (ticks w) (transport w)
                    (requested w ++ [url]) (removed w) in
    match transport w (length (requested w)) url with
    | Respond st body => (w', Ok {| status_code := st; content := body |})
    | Fail e => (w', Raise e)
    end.

(** [response.raise_for_status()] *)
Definition raise_for_status (r : Response) : M unit :=
  if (400 <=? status_code r) && (status_code r <? 600) then raise HTTPError else ret tt.

(** [a.endswith("/")] *)
Fixpoint ends_with_slash (a : string) : bool :=
  match a with
  | "" => false
  | String c "" => Ascii.eqb c "/"%char
  | String _ rest => ends_with_slash rest
  end.

(** [os.path.join(a, b)] *)
Definition os_path_join (a b : string) : string :=
  match b with
  | String "/" _ => b
  | _ =>
      match a with
      | "" => b
      | _ => if ends_with_slash a then a +:+ b else a +:+ "/" +:+ b
      end
  end.

(** [logger.debug], [logger.info], [logger.warning], [logger.error]: the log
    is not part of the world. *)
Definition logger_log (msg : string) : M unit := ret tt.

(** ** The Python library functions the cache calls

    - [md5_hexdigest k]: [hashlib.md5(k.encode()).hexdigest()];
    - [json_dump_text v]: the text [json.dump(v, f)] has written to [f] when
      it ends, and the exception that ends it when [v] is not serialisable
      ([json.dump] writes chunk by chunk, so the chunks before the
      exception are in the file);
    - [json_loads s]: [json.load] on a file holding [s]; [None] when that
      raises ([JSONDecodeError], [UnicodeDecodeError]: both are
      [ValueError]s);
    - [isoformat t]: [t.isoformat()];
    - [fromisoformat s]: the naive datetime [datetime.fromisoformat(s)]
      returns; [None] when that raises [ValueError], and also when it
      returns an offset-aware datetime: [datetime.now() - stored_at] then
      raises [TypeError], which the handlers of [retrieve] and of the
      cleanup scan catch as they catch the [ValueError] (the reading of the
      clock that the [TypeError] throws away is no reading of [clock]);
    - [str_encoded_len v]: [len(str(v).encode())]. *)
Class PyRuntime : Type := {
  md5_hexdigest : string -> string;
  json_dump_text : pyval -> string * option exn;
  json_loads : string -> option pyval;
  isoformat : Z -> string;
  fromisoformat : string -> option Z;
  str_encoded_len : pyval -> Z
}.

Section Library.
Context {rt : PyRuntime}.

(** [json.load(f)] for a file holding [text] *)
Definition json_load (text : string) : M pyval :=
  match json_loads text with
  | Some v => ret v
  | None => raise ValueError
  end.

(** [with open(path, "w") as f: json.dump(value, f)], after the [open] *)
Definition json_dump (value : pyval) (path : string) : M unit :=
  let '(text, err) := json_dump_text value in
  file_write path text ;;;
  match err with
  | Some e => raise e
  | None => ret tt
  end.

(** [v.get(k, default)]: only a dict has [get]. *)
Definition py_get (v : pyval) (k : string) (default : pyval) : M pyval :=
  match v with
  | PDict d =>
      match dict_get k d with
      | Some x => ret x
      | None => ret default
      end
  | _ => raise AttributeError
  end.

(** [datetime.fromisoformat(v)] *)
Definition datetime_fromisoformat (v : pyval) : M Z :=
  match v with
  | PStr s =>
      match fromisoformat s with
      | Some t => ret t
      | None => raise ValueError
      end
  | _ => raise TypeError
  end.

(** [bool(v)] *)
Definition py_truthy (v : pyval) : bool :=
  match v with
  | PNone => false
  | PBool b => b
  | PInt n => negb (n =? 0)
  | PStr s => negb (String.eqb s "")
  | PList xs => match xs with [] => false | _ => true end
  | PDict d => match d with [] => false | _ => true end
  | PObject _ => true
  end.

(** [k in s] for two strings *)
Fixpoint is_substring (k s : string) : bool :=
  String.prefix k s ||
  match s with
  | "" => false
  | String _ rest => is_substring k rest
  end.

(** [k in v] for a string [k] *)
Definition py_contains (k : string) (v : pyval) : M bool :=
  match v with
  | PDict d => ret (dict_in k d)
  | PStr s => ret (is_substring k s)
  | PList xs =>
      ret (existsb (fun x => match x with PStr s => String.eqb s k | _ => false end) xs)
  | _ => raise TypeError
  end.

(** [v[k]] for a string [k] *)
Definition py_getitem (v : pyval) (k : string) : M pyval :=
  match v with
  | PDict d =>
      match dict_get k d with
      | Some x => ret x
      | None => raise KeyError
      end
  | _ => raise TypeError
  end.
End Library.

(** ** [class FileCacheStorage] *)

Module FileCacheStorage.

Record t : Type := {
  cache_dir : string;
  max_age_days : Z;
  max_total_size_bytes : Z
}.

(** The dictionaries [_cleanup_oldest_files] collects in [cache_files]. *)
Record cache_file : Type := {
  path : string;
  size : Z;
  stored_at : Z;
  is_expired : bool
}.

(** [list.sort(key=lambda x: x["stored_at"])]: ascending and stable. *)
Fixpoint insert_by_stored_at (f : cache_file) (l : list cache_file) : list cache_file :=
  match l with
  | [] => [f]
  | g :: rest =>
      if stored_at f <=? stored_at g then f :: g :: rest
      else g :: insert_by_stored_at f rest
  end.

Fixpoint sort_by_stored_at (l : list cache_file) : list cache_file :=
  match l with
  | [] => []
  | f :: rest => insert_by_stored_at f (sort_by_stored_at rest)
  end.

Section Methods.
Context {rt : PyRuntime}.

Definition __init__ (cache_dir : string) (max_age_days max_total_size_bytes : Z) : M t :=
  os_makedirs ;;;
  logger_log "Cached dir created" ;;;
  ret {| cache_dir := cache_dir;
         max_age_days := max_age_days;
         max_total_size_bytes := max_total_size_bytes |}.

Definition _get_cache_path (self : t) (key : string) : string :=
  let safe_key := md5_hexdigest key in
  os_path_join (cache_dir self) (safe_key +:+ ".cache").

Definition _get_total_cache_size (self : t) : M Z :=
  entries <- os_scandir ;;
  ret (fold_left (fun total_size entry => total_size + entry_size entry) entries 0).

(** The body of the first loop of [_cleanup_oldest_files], for one
    directory entry. *)
Definition cleanup_scan_entry (self : t) (entry : DirEntry) : M cache_file :=
  try_except
    (text <- read_file (entry_path entry) ;;
     metadata <- json_load text ;;
     s <- py_get metadata "stored_at" (PStr "") ;;
     stored_at <- datetime_fromisoformat s ;;
     now <- datetime_now ;;
     max_age <- timedelta (max_age_days self) ;;
     let is_expired := now - stored_at >? max_age in
     ret {| path := entry_path entry;
            size := entry_size entry;
            stored_at := stored_at;
            is_expired := is_expired |})
    (fun _ =>
       ret {| path := entry_path entry;
              size := entry_size entry;
              stored_at := datetime_min;
              is_expired := true |}).

Fixpoint cleanup_scan (self : t) (entries : list DirEntry) : M (list cache_file) :=
  match entries with
  | [] => ret []
  | entry :: rest =>
      f <- cleanup_scan_entry self entry ;;
      fs <- cleanup_scan self rest ;;
      ret (f :: fs)
  end.

(** [for file in expired_files: try: os.remove(...) except: pass] *)
Fixpoint cleanup_remove_expired (expired_files : list cache_file) : M unit :=
  match expired_files with
  | [] => ret tt
  | file :: rest =>
      try_except (os_remove (path file)) (fun _ => ret tt) ;;;
      cleanup_remove_expired rest
  end.

(** The loop over [non_expired_files]: [Ok true] is the [break]; an
    exception is passed over and the loop goes on. *)
Fixpoint cleanup_remove_oldest (self : t) (non_expired_files : list cache_file) : M unit :=
  match non_expired_files with
  | [] => ret tt
  | file :: rest =>
      r <- attempt (os_remove (path file) ;;;
                    total <- _get_total_cache_size self ;;
                    ret (total <=? max_total_size_bytes self)) ;;
      match r with
      | Ok true => ret tt
      | Ok false | Raise _ => cleanup_remove_oldest self rest
      end
  end.

Definition _cleanup_oldest_files (self : t) : M unit :=
  entries <- os_scandir ;;
  cache_files <- cleanup_scan self entries ;;
  let expired_files := sort_by_stored_at (filter (fun f => is_expired f = true) cache_files) in
  cleanup_remove_expired expired_files ;;;
  total <- _get_total_cache_size self ;;
  if total >? max_total_size_bytes self then
    let non_expired_files :=
      sort_by_stored_at (filter (fun f => is_expired f = false) cache_files) in
    cleanup_remove_oldest self non_expired_files
  else ret tt.

(** The [try] block of [store]. *)
Definition store_body (self : t) (key : string) (value : pydict) : M unit :=
  current_size <- _get_total_cache_size self ;;
  (if current_size + str_encoded_len (PDict value) >? max_total_size_bytes self
   then _cleanup_oldest_files self else ret tt) ;;;
  let cache_path := _get_cache_path self key in
  now <- datetime_now ;;
  let value := dict_set "stored_at" (PStr (isoformat now)) value in
  open_truncate cache_path ;;;
  json_dump (PDict value) cache_path.

Definition store (self : t) (key : string) (value : pydict) : M unit :=
  try_except (store_body self key value)
             (fun e => logger_log "Error storing cache").

(** The [try] block of [retrieve]. *)
Definition retrieve_body (self : t) (key : string) : M (option pyval) :=
  let cache_path := _get_cache_path self key in
  found <- os_path_exists cache_path ;;
  if negb found then ret None
  else
    text <- read_file cache_path ;;
    entry <- json_load text ;;
    s <- py_get entry "stored_at" (PStr "") ;;
    stored_at <- datetime_fromisoformat s ;;
    now <- datetime_now ;;
    max_age <- timedelta (max_age_days self) ;;
    if now - stored_at >? max_age then
      os_remove cache_path ;;;
      ret None
    else ret (Some entry).

Definition retrieve (self : t) (key : string) : M (option pyval) :=
  try_except (retrieve_body self key)
             (fun e => logger_log "Error retrieving cache" ;;; ret None).

Definition delete (self : t) (key : string) : M unit :=
  try_except
    (let cache_path := _get_cache_path self key in
     found <- os_path_exists cache_path ;;
     if found then os_remove cache_path else ret tt)
    (fun e => logger_log "Error deleting cache").

Definition clear (self : t) : M unit :=
  try_except (shutil_rmtree ;;; os_makedirs)
             (fun e => logger_log "Error clearing cache").
End Methods.

End FileCacheStorage.

(** ** [class TrackUrlCache] *)

Module TrackUrlCache.

Record t : Type := {
  storage : FileCacheStorage.t;
  download_timeout : Z;
  max_retries : Z
}.

(** The names the module [cache.py] binds at top level. *)
Definition module_globals : list string :=
  ["datetime"; "timedelta"; "hashlib"; "json"; "logging"; "os"; "queue"; "shutil";
   "threading"; "Any"; "Dict"; "Optional"; "requests"; "logger";
   "FileCacheStorage"; "TrackUrlCache"].

(** Reading a name that the function does not bind: it is looked up among
    the module's globals (no builtin is called [max_cache_size_bytes]). *)
Definition load_global (name : string) : M pyval :=
  if bool_decide (name ∈ module_globals) then ret (PObject name)
  else raise (NameError name).

Section Methods.
Context {rt : PyRuntime}.

(** [storage_adapter or FileCacheStorage(max_total_size_bytes=max_cache_size_bytes)];
    an instance of [FileCacheStorage] is truthy. *)
Definition __init__ (storage_adapter : option FileCacheStorage.t)
    (download_timeout max_retries : Z) : M t :=
  storage <-
    match storage_adapter with
    | Some adapter => ret adapter
    | None =>
        v <- load_global "max_cache_size_bytes" ;;
        match v with
        | PInt n => FileCacheStorage.__init__ ".cache/tracks" 30 n
        | _ => raise TypeError
        end
    end ;;
  ret {| storage := storage;
         download_timeout := download_timeout;
         max_retries := max_retries |}.

(** The [try] block inside the retry loop. *)
Definition download_attempt (self : t) (track_id url : string)
    (additional_metadata : option pydict) (cache_path : string) : M pyval :=
  response <- requests_get url (download_timeout self) ;;
  raise_for_status response ;;;
  open_truncate cache_path ;;;
  file_write cache_path (content response) ;;;
  let metadata :=
    dict_update [("track_id", PStr track_id);
                 ("local_path", PStr cache_path);
                 ("size_bytes", PInt (st_size (content response)))]
                (match additional_metadata with
                 | Some ((_ :: _) as d) => d
                 | _ => []
                 end) in
  FileCacheStorage.store (storage self) track_id metadata ;;;
  logger_log "Successfully cached track" ;;;
  ret (PStr cache_path).

(** [for attempt in range(self.max_retries): try: ... except
    requests.RequestException: ...]; falling off the loop returns
    [None]. *)
Fixpoint download_loop (self : t) (track_id url : string)
    (additional_metadata : option pydict) (cache_path : string)
    (attempts : list Z) : M pyval :=
  match attempts with
  | [] => ret PNone
  | attempt_no :: rest =>
      r <- attempt (download_attempt self track_id url additional_metadata cache_path) ;;
      match r with
      | Ok cached => ret cached
      | Raise e =>
          if is_RequestException e then
            logger_log "Download attempt failed" ;;;
            if attempt_no =? max_retries self - 1 then
              logger_log "Failed to download track" ;;;
              ret PNone
            else download_loop self track_id url additional_metadata cache_path rest
          else raise e
      end
  end.

Definition _cache_track_url (self : t) (track_id url : string)
    (additional_metadata : option pydict) : M pyval :=
  cached_entry <- FileCacheStorage.retrieve (storage self) track_id ;;
  hit <- match cached_entry with
         | Some entry =>
             if py_truthy entry then py_contains "local_path" entry else ret false
         | None => ret false
         end ;;
  if hit then
    logger_log "Using cached track" ;;;
    py_getitem (default PNone cached_entry) "local_path"
  else
    let cache_filename := md5_hexdigest track_id +:+ ".track" in
    let cache_path := os_path_join (FileCacheStorage.cache_dir (storage self)) cache_filename in
    os_makedirs ;;;
    download_loop self track_id url additional_metadata cache_path
                  (seqZ 0 (max_retries self)).

Definition _background_cache_retrieval (self : t) (track_id url : string)
    (additional_metadata : option pydict) : M unit :=
  try_except
    (cached_track <- _cache_track_url self track_id url additional_metadata ;;
     logger_log "Background cache retrieval completed")
    (fun e => logger_log "Background cache retrieval failed").

(** The thread body [cache_retrieval]: its value is what it puts on
    [result_queue]. *)
Definition cache_retrieval (self : t) (track_id url : string)
    (additional_metadata : option pydict) : M pyval :=
  try_except (_cache_track_url self track_id url additional_metadata)
             (fun _ => ret PNone).

(** [result_queue.get(block=False)]; [joined] tells whether the
    retrieval thread had put its result when [join(timeout=timeout)]
    returned. *)
Definition queue_get (joined : bool) (queued : pyval) : M pyval :=
  if joined then ret queued else raise QueueEmpty.

(** Threads are run one after the other, each to its end: first the
    retrieval thread, then (when one is started) the background thread.
    When the wait ends before the retrieval thread ([joined] is [false]) the
    two threads of the code overlap; the statements below about that case
    are about what no interleaving changes: the value returned, and the
    requests made when nothing is written. *)
Definition cache_track_url (self : t) (track_id url : string)
    (additional_metadata : option pydict) (joined : bool) : M pyval :=
  queued <- cache_retrieval self track_id url additional_metadata ;;
  try_except
    (cached_track <- queue_get joined queued ;;
     match cached_track with
     | PNone =>
         _background_cache_retrieval self track_id url additional_metadata ;;;
         ret PNone
     | _ => ret cached_track
     end)
    (fun e =>
       match e with
       | QueueEmpty =>
           _background_cache_retrieval self track_id url additional_metadata ;;;
           ret PNone
       | _ => raise e
       end).

Definition get_cached_track (self : t) (track_id : string) : M (option pyval) :=
  FileCacheStorage.retrieve (storage self) track_id.

Definition delete_cached_track (self : t) (track_id : string) : M unit :=
  FileCacheStorage.delete (storage self) track_id.

Definition clear_cache (self : t) : M unit :=
  FileCacheStorage.clear (storage self).
End Methods.

End TrackUrlCache.

(** ** A runtime to evaluate the model in

    Executable versions of the library functions, used where the cache is
    run on concrete inputs: md5 and the ISO format as Python computes them,
    the json encoder on every value, the json decoder on the documents the
    cache writes, [repr] lengths for the values above.

    They follow the library on the inputs used below and are narrower
    elsewhere: [fromisoformat] reads the two shapes [isoformat] writes (not
    a date alone, nor an offset), [json_loads] reads a scalar or an object
    of scalars (a list or a nested object is reported as undecodable), and
    strings are escaped byte by byte, as [json.dump] does for ASCII text.
    The theorems are stated for every [PyRuntime]; this one serves the
    examples. *)

Module Sample.

(** *** Decimal and hexadecimal digits *)

Definition digit_char (n : Z) : ascii := ascii_of_nat (Z.to_nat (48 + n)).

Definition hex_char (n : Z) : ascii :=
  if n <? 10 then ascii_of_nat (Z.to_nat (48 + n)) else ascii_of_nat (Z.to_nat (87 + n)).

Definition hex_byte (b : Z) : string :=
  String (hex_char (b / 16)) (String (hex_char (b mod 16)) "").

(** [n] written with at least [width] decimal digits, for [0 <= n]. *)
Fixpoint zero_padded (width : nat) (n : Z) : string :=
  match width with
  | O => ""
  | S k => zero_padded k (n / 10) +:+ String (digit_char (n mod 10)) ""
  end.

Definition char_code (c : ascii) : Z := Z.of_nat (nat_of_ascii c).

Fixpoint bytes_of (s : string) : list Z :=
  match s with
  | "" => []
  | String c rest => char_code c :: bytes_of rest
  end.

(** *** [hashlib.md5(k.encode()).hexdigest()] (RFC 1321) *)

Definition md5_K : list Z :=
  [3614090360; 3905402710; 606105819; 3250441966; 4118548399; 1200080426; 2821735955; 4249261313;
   1770035416; 2336552879; 4294925233; 2304563134; 1804603682; 4254626195; 2792965006; 1236535329;
   4129170786; 3225465664; 643717713; 3921069994; 3593408605; 38016083; 3634488961; 3889429448;
   568446438; 3275163606; 4107603335; 1163531501; 2850285829; 4243563512; 1735328473; 2368359562;
   4294588738; 2272392833; 1839030562; 4259657740; 2763975236; 1272893353; 4139469664; 3200236656;
   681279174; 3936430074; 3572445317; 76029189; 3654602809; 3873151461; 530742520; 3299628645;
   4096336452; 1126891415; 2878612391; 4237533241; 1700485571; 2399980690; 4293915773; 2240044497;
   1873313359; 4264355552; 2734768916; 1309151649; 4149444226; 3174756917; 718787259; 3951481745].

Definition md5_S : list Z :=
  [7; 12; 17; 22; 7; 12; 17; 22; 7; 12; 17; 22; 7; 12; 17; 22;
   5; 9; 14; 20; 5; 9; 14; 20; 5; 9; 14; 20; 5; 9; 14; 20;
   4; 11; 16; 23; 4; 11; 16; 23; 4; 11; 16; 23; 4; 11; 16; 23;
   6; 10; 15; 21; 6; 10; 15; 21; 6; 10; 15; 21; 6; 10; 15; 21].

Definition w32 (x : Z) : Z := x mod 4294967296.

Definition rotl32 (x c : Z) : Z :=
  w32 (Z.lor (Z.shiftl x c) (Z.shiftr x (32 - c))).

Definition not32 (x : Z) : Z := 4294967295 - x.

(** Little-endian bytes of a word of [n] bytes. *)
Fixpoint le_bytes (n : nat) (x : Z) : list Z :=
  match n with
  | O => []
  | S k => x mod 256 :: le_bytes k (x / 256)
  end.

Fixpoint le_word (bs : list Z) : Z :=
  match bs with
  | [] => 0
  | b :: rest => b + 256 * le_word rest
  end.

Definition md5_pad (msg : list Z) : list Z :=
  let len := Z.of_nat (length msg) in
  let zeros := Z.to_nat ((55 - len) mod 64) in
  msg ++ [128] ++ replicate zeros 0 ++ le_bytes 8 (8 * len).

(** Cut a list into pieces of [n] elements; [fuel] bounds the number of pieces. *)
Fixpoint chunks_of {A} (fuel n : nat) (l : list A) : list (list A) :=
  match fuel with
  | O => []
  | S k =>
      match l with
      | [] => []
      | _ => take n l :: chunks_of k n (drop n l)
      end
  end.

Definition md5_round (m : list Z) (st : Z * Z * Z * Z) (i : Z) : Z * Z * Z * Z :=
  let '(a, b, c, d) := st in
  let '(f, g) :=
    if i <? 16 then (Z.lor (Z.land b c) (Z.land (not32 b) d), i)
    else if i <? 32 then (Z.lor (Z.land d b) (Z.land (not32 d) c), (5 * i + 1) mod 16)
    else if i <? 48 then (Z.lxor (Z.lxor b c) d, (3 * i + 5) mod 16)
    else (Z.lxor c (Z.lor b (not32 d)), (7 * i) mod 16) in
  let k := List.nth (Z.to_nat i) md5_K 0 in
  let s := List.nth (Z.to_nat i) md5_S 0 in
  let x := List.nth (Z.to_nat g) m 0 in
  (d, w32 (b + rotl32 (w32 (f + a + k + x)) s), b, c).

Definition md5_block (st : Z * Z * Z * Z) (block : list Z) : Z * Z * Z * Z :=
  let m := map le_word (chunks_of 16 4 block) in
  let '(a, b, c, d) := fold_left (md5_round m) (seqZ 0 64) st in
  let '(a0, b0, c0, d0) := st in
  (w32 (a0 + a), w32 (b0 + b), w32 (c0 + c), w32 (d0 + d)).

Definition md5_hexdigest (key : string) : string :=
  let msg := md5_pad (bytes_of key) in
  let '(a, b, c, d) :=
    fold_left md5_block (chunks_of (length msg) 64 msg)
              (1732584193, 4023233417, 2562383102, 271733878) in
  String.concat "" (map hex_byte (le_bytes 4 a ++ le_bytes 4 b ++ le_bytes 4 c ++ le_bytes 4 d)).

(** *** [datetime.isoformat] and [datetime.fromisoformat]

    A datetime is its number of microseconds since [datetime.min],
    0001-01-01T00:00:00. *)

Definition is_leap (y : Z) : bool :=
  (y mod 4 =? 0) && (negb (y mod 100 =? 0) || (y mod 400 =? 0)).

Definition days_before_year (y : Z) : Z :=
  let p := y - 1 in p * 365 + p / 4 - p / 100 + p / 400.

Definition days_in_month (y m : Z) : Z :=
  if m =? 2 then (if is_leap y then 29 else 28)
  else if (m =? 4) || (m =? 6) || (m =? 9) || (m =? 11) then 30 else 31.

Definition days_before_month (y m : Z) : Z :=
  fold_left (fun acc k => acc + days_in_month y k) (seqZ 1 (m - 1)) 0.

(** Year, month and day of the day number [n], counted from 0. *)
Definition ymd_of_days (n : Z) : Z * Z * Z :=
  let n400 := n / 146097 in let n := n mod 146097 in
  let n100 := n / 36524 in let n := n mod 36524 in
  let n4 := n / 1461 in let n := n mod 1461 in
  let n1 := n / 365 in let n := n mod 365 in
  let y := n400 * 400 + n100 * 100 + n4 * 4 + n1 + 1 in
  if (n1 =? 4) || (n100 =? 4) then (y - 1, 12, 31)
  else
    let m := fold_left (fun m k => if days_before_month y (k + 1) <=? n then k + 1 else m)
                       (seqZ 1 11) 1 in
    (y, m, n - days_before_month y m + 1).

Definition isoformat (t : Z) : string :=
  let us := t mod 1000000 in
  let secs := t / 1000000 in
  let '(y, m, d) := ymd_of_days (secs / 86400) in
  let sod := secs mod 86400 in
  zero_padded 4 y +:+ "-" +:+ zero_padded 2 m +:+ "-" +:+ zero_padded 2 d +:+ "T" +:+
  zero_padded 2 (sod / 3600) +:+ ":" +:+ zero_padded 2 (sod / 60 mod 60) +:+ ":" +:+
  zero_padded 2 (sod mod 60) +:+
  (if us =? 0 then "" else "." +:+ zero_padded 6 us).

Definition digit_value (c : ascii) : option Z :=
  let n := char_code c in
  if (48 <=? n) && (n <=? 57) then Some (n - 48) else None.

(** The number written by a string of decimal digits. *)
Fixpoint digits_value (acc : Z) (s : string) : option Z :=
  match s with
  | "" => Some acc
  | String c rest =>
      match digit_value c with
      | Some d => digits_value (10 * acc + d) rest
      | None => None
      end
  end.

Definition field (s : string) (start len : nat) : option Z :=
  let f := String.substring start len s in
  if (String.length f =? len)%nat then digits_value 0 f else None.

Definition separator (s : string) (pos : nat) (c : string) : bool :=
  String.eqb (String.substring pos 1 s) c.

(** Reads back the two shapes [isoformat] writes,
    [YYYY-MM-DDTHH:MM:SS] and [YYYY-MM-DDTHH:MM:SS.ffffff]. *)
Definition fromisoformat (s : string) : option Z :=
  y ← field s 0 4; m ← field s 5 2; d ← field s 8 2;
  hh ← field s 11 2; mm ← field s 14 2; ss ← field s 17 2;
  us ← (if (String.length s =? 19)%nat then Some 0
        else if (String.length s =? 26)%nat && separator s 19 "." then field s 20 6
        else None);
  if separator s 4 "-" && separator s 7 "-" && separator s 10 "T" &&
     separator s 13 ":" && separator s 16 ":" &&
     (1 <=? y) && (1 <=? m) && (m <=? 12) && (1 <=? d) && (d <=? days_in_month y m) &&
     (hh <? 24) && (mm <? 60) && (ss <? 60)
  then Some ((((days_before_year y + days_before_month y m + d - 1) * 24 + hh) * 60 + mm)
             * 60000000 + ss * 1000000 + us)
  else None.

(** *** [json.dump] and [json.load] *)

(** The double quote, as a string. *)
Definition dquote : string := String "034" "".

(** One character inside a JSON string, as [json.dump] writes it
    ([ensure_ascii=True]). *)
Definition json_escape_char (c : ascii) : string :=
  let n := char_code c in
  if n =? 34 then "\" +:+ dquote
  else if n =? 92 then "\\"
  else if n =? 8 then "\b"
  else if n =? 12 then "\f"
  else if n =? 10 then "\n"
  else if n =? 13 then "\r"
  else if n =? 9 then "\t"
  else if (n <? 32) || (126 <? n) then "\u00" +:+ hex_byte n
  else String c "".

Fixpoint json_escape (s : string) : string :=
  match s with
  | "" => ""
  | String c rest => json_escape_char c +:+ json_escape rest
  end.

Definition json_quote (s : string) : string := dquote +:+ json_escape s +:+ dquote.

(** The text [json.dump] writes for [v] until it is done or raises: the
    encoder yields the opening bracket, the separators and the keys
    before it looks at the value that follows them. *)
Fixpoint json_dump_text (v : pyval) : string * option exn :=
  match v with
  | PNone => ("null", None)
  | PBool true => ("true", None)
  | PBool false => ("false", None)
  | PInt n => (pretty n, None)
  | PStr s => (json_quote s, None)
  | PList [] => ("[]", None)
  | PList xs =>
      let fix items (first : bool) (xs : list pyval) : string * option exn :=
        match xs with
        | [] => ("]", None)
        | x :: rest =>
            let sep := if first then "" else ", " in
            match json_dump_text x with
            | (tx, Some e) => (sep +:+ tx, Some e)
            | (tx, None) =>
                let '(tr, er) := items false rest in (sep +:+ tx +:+ tr, er)
            end
        end in
      let '(t, e) := items true xs in ("[" +:+ t, e)
  | PDict [] => ("{}", None)
  | PDict kvs =>
      let fix items (first : bool) (kvs : list (string * pyval)) : string * option exn :=
        match kvs with
        | [] => ("}", None)
        | (k, x) :: rest =>
            let sep := (if first then "" else ", ") +:+ json_quote k +:+ ": " in
            match json_dump_text x with
            | (tx, Some e) => (sep +:+ tx, Some e)
            | (tx, None) =>
                let '(tr, er) := items false rest in (sep +:+ tx +:+ tr, er)
            end
        end in
      let '(t, e) := items true kvs in ("{" +:+ t, e)
  | PObject _ => ("", Some TypeError)
  end.

Definition hex_value (c : ascii) : option Z :=
  let n := char_code c in
  if (48 <=? n) && (n <=? 57) then Some (n - 48)
  else if (97 <=? n) && (n <=? 102) then Some (n - 87)
  else if (65 <=? n) && (n <=? 70) then Some (n - 55)
  else None.

Definition char_of_code (n : Z) : ascii := ascii_of_nat (Z.to_nat n).

(** The string that starts after an opening quote, and what follows its
    closing quote. *)
Fixpoint json_unquote (s : string) : option (string * string) :=
  match s with
  | "" => None
  | String c rest =>
      if char_code c =? 34 then Some ("", rest)
      else if char_code c =? 92 then
        match rest with
        | String e rest1 =>
            if char_code e =? 117 then
              match rest1 with
              | String h1 (String h2 (String h3 (String h4 rest2))) =>
                  a ← hex_value h1; b ← hex_value h2; c ← hex_value h3; d ← hex_value h4;
                  if (a =? 0) && (b =? 0) then
                    '(body, after) ← json_unquote rest2;
                    Some (String (char_of_code (16 * c + d)) body, after)
                  else None
              | _ => None
              end
            else
              code ← (if char_code e =? 34 then Some 34
                      else if char_code e =? 92 then Some 92
                      else if char_code e =? 47 then Some 47
                      else if char_code e =? 98 then Some 8
                      else if char_code e =? 102 then Some 12
                      else if char_code e =? 110 then Some 10
                      else if char_code e =? 114 then Some 13
                      else if char_code e =? 116 then Some 9
                      else None);
              '(body, after) ← json_unquote rest1;
              Some (String (char_of_code code) body, after)
        | "" => None
        end
      else if char_code c <? 32 then None
      else
        '(body, after) ← json_unquote rest;
        Some (String c body, after)
  end.

Fixpoint skip_ws (s : string) : string :=
  match s with
  | String c rest =>
      if (char_code c =? 32) || (char_code c =? 10) || (char_code c =? 13) || (char_code c =? 9)
      then skip_ws rest else s
  | "" => ""
  end.

(** The leading decimal digits of [s], and what follows them. *)
Fixpoint span_digits (s : string) : string * string :=
  match s with
  | String c rest =>
      match digit_value c with
      | Some _ => let '(ds, after) := span_digits rest in (String c ds, after)
      | None => ("", s)
      end
  | "" => ("", "")
  end.

Definition starts_number_tail (s : string) : bool :=
  match s with
  | String c _ => (char_code c =? 46) || (char_code c =? 101) || (char_code c =? 69)
  | "" => false
  end.

Definition json_natural (s : string) : option (Z * string) :=
  let '(ds, after) := span_digits s in
  match ds with
  | "" => None
  | String d more =>
      if (char_code d =? 48) && negb (String.eqb more "") then None
      else if starts_number_tail after then None
      else n ← digits_value 0 ds; Some (n, after)
  end.

(** A string, an integer, [true], [false] or [null]. *)
Definition json_scalar (s : string) : option (pyval * string) :=
  match s with
  | String c rest =>
      if char_code c =? 34 then '(body, after) ← json_unquote rest; Some (PStr body, after)
      else if char_code c =? 45 then '(n, after) ← json_natural rest; Some (PInt (- n), after)
      else if String.prefix "null" s then Some (PNone, String.substring 4 (String.length s - 4) s)
      else if String.prefix "true" s then Some (PBool true, String.substring 4 (String.length s - 4) s)
      else if String.prefix "false" s then Some (PBool false, String.substring 5 (String.length s - 5) s)
      else '(n, after) ← json_natural s; Some (PInt n, after)
  | "" => None
  end.

Fixpoint json_members (fuel : nat) (s : string) (acc : pydict) : option (pydict * string) :=
  match fuel with
  | O => None
  | S fuel' =>
      match skip_ws s with
      | String q r =>
          if char_code q =? 34 then
            '(key, r1) ← json_unquote r;
            match skip_ws r1 with
            | String colon r2 =>
                if char_code colon =? 58 then
                  '(v, r3) ← json_scalar (skip_ws r2);
                  let acc' := dict_set key v acc in
                  match skip_ws r3 with
                  | String sep r4 =>
                      if char_code sep =? 44 then json_members fuel' r4 acc'
                      else if char_code sep =? 125 then Some (acc', r4)
                      else None
                  | "" => None
                  end
                else None
            | "" => None
            end
          else None
      | "" => None
      end
  end.

(** A decoder for the documents the cache writes: a scalar, or an object
    whose values are scalars.  Any other text is reported as not
    decodable. *)
Definition json_loads (s : string) : option pyval :=
  match skip_ws s with
  | String c r =>
      '(v, after) ←
        (if char_code c =? 123 then
           match skip_ws r with
           | String c' r' =>
               if char_code c' =? 125 then Some (PDict [], r')
               else '(d, after) ← json_members (String.length s) r []; Some (PDict d, after)
           | "" => None
           end
         else json_scalar (String c r));
      if String.eqb (skip_ws after) "" then Some v else None
  | "" => None
  end.

(** *** [len(str(v).encode())] *)

Fixpoint has_char (n : Z) (s : string) : bool :=
  match s with
  | "" => false
  | String c rest => (char_code c =? n) || has_char n rest
  end.

(** Bytes one character takes in the UTF-8 encoding of [repr(s)], when
    [s] is written between quotes of code [quote]. *)
Definition repr_char_len (quote : Z) (c : ascii) : Z :=
  let n := char_code c in
  if (n =? 92) || (n =? quote) || (n =? 9) || (n =? 10) || (n =? 13) then 2
  else if (n <? 32) || (n =? 127) then 4
  else if n <? 127 then 1
  else if (n <=? 160) || (n =? 173) then 4
  else 2.

Definition str_repr_len (s : string) : Z :=
  let quote := if has_char 39 s && negb (has_char 34 s) then 34 else 39 in
  (fix go (s : string) : Z :=
     match s with
     | "" => 2
     | String c rest => repr_char_len quote c + go rest
     end) s.

Fixpoint str_encoded_len (v : pyval) : Z :=
  match v with
  | PNone => 4
  | PBool true => 4
  | PBool false => 5
  | PInt n => Z.of_nat (String.length (pretty n))
  | PStr s => str_repr_len s
  | PList xs =>
      2 + (fix items (first : bool) (xs : list pyval) : Z :=
             match xs with
             | [] => 0
             | x :: rest => (if first then 0 else 2) + str_encoded_len x + items false rest
             end) true xs
  | PDict kvs =>
      2 + (fix items (first : bool) (kvs : list (string * pyval)) : Z :=
             match kvs with
             | [] => 0
             | (k, x) :: rest =>
                 (if first then 0 else 2) + str_repr_len k + 2 + str_encoded_len x
                 + items false rest
             end) true kvs
  | PObject cls => Z.of_nat (String.length cls) + 27
  end.


(** The runtime the examples are evaluated in. *)
Definition runtime : PyRuntime :=
  Build_PyRuntime md5_hexdigest json_dump_text json_loads isoformat fromisoformat
                  str_encoded_len.

End Sample.

(** ** Vocabulary of the statements *)

(** The bytes of the file at [p]; [None] when the directory or the file
    does not exist. *)
Definition lookup_file (w : world) (p : string) : option string :=
  match dir w with
  | Some files => files !! p
  | None => None
  end.

(** The sum of the sizes of the files of a directory. *)
Definition dir_size (files : gmap string string) : Z :=
  foldr (fun pc total => st_size (snd pc) + total) 0 (map_to_list files).

(** The directory after the files at [paths] have been removed. *)
Definition remove_all (paths : list string) (files : gmap string string) : gmap string string :=
  fold_left (fun m p => delete p m) paths files.

(** The world after one more reading of the clock. *)
Definition tick (w : world) : world :=
  World (dir w) (clock w) (S (ticks w)) (transport w) (requested w) (removed w).

(** The world with directory [files], after [paths] were removed from it. *)
Definition after_removals (files : gmap string string) (paths : list string) (w : world) : world :=
  World (Some files) (clock w) (ticks w) (transport w) (requested w) (removed w ++ paths).

(** The world with directory [files], [n] readings of the clock made and
    removal log [rm]; clock, network and request log are those of [w]. *)
Definition mkw (files : gmap string string) (n : nat) (rm : list string) (w : world) : world :=
  World (Some files) (clock w) n (transport w) (requested w) rm.

(** The time at which the record [text] says it was stored: what
    [json.load], [.get("stored_at", "")] and [datetime.fromisoformat] make of
    it, [None] when one of them raises. *)
Definition stored_at_of {rt : PyRuntime} (text : string) : option Z :=
  match json_loads text with
  | Some (PDict d) =>
      match default (PStr "") (dict_get "stored_at" d) with
      | PStr s => fromisoformat s
      | _ => None
      end
  | _ => None
  end.

(** What [_cleanup_oldest_files] records for a file it cannot read. *)
Definition corrupt_record (e : DirEntry) : FileCacheStorage.cache_file :=
  {| FileCacheStorage.path := entry_path e;
     FileCacheStorage.size := entry_size e;
     FileCacheStorage.stored_at := datetime_min;
     FileCacheStorage.is_expired := true |}.

(** What the scan of [_cleanup_oldest_files] records for the readable
    entry [e], stored at [t], when [now] is the reading of the clock made
    for it. *)
Definition judged_record (self : FileCacheStorage.t) (e : DirEntry) (t now : Z) :
    FileCacheStorage.cache_file :=
  {| FileCacheStorage.path := entry_path e;
     FileCacheStorage.size := entry_size e;
     FileCacheStorage.stored_at := t;
     FileCacheStorage.is_expired :=
       now - t >? timedelta_days (FileCacheStorage.max_age_days self) |}.

(** What one cleanup pass makes of the entries [es] of the directory of
    [w], in the order of the scan, when the clock has been read [n] times
    before: a file without a readable [stored_at] is recorded as expired and
    stored at [datetime.min], and the clock is not read for it; a readable
    one is recorded with its [stored_at], and is expired when it is older
    than [max_age_days] at the reading of the clock made for it, the next
    one.  When [timedelta] refuses [max_age_days], a readable file is
    recorded as a corrupt one is, after the clock has been read for it. *)
Fixpoint judged {rt : PyRuntime} (self : FileCacheStorage.t) (w : world) (n : nat)
    (es : list DirEntry) : list FileCacheStorage.cache_file :=
  match es with
  | [] => []
  | e :: rest =>
      match lookup_file w (entry_path e) ≫= stored_at_of with
      | Some t =>
          (if Z.abs (FileCacheStorage.max_age_days self) >? timedelta_max_days
           then corrupt_record e
           else judged_record self e t (clock w n))
          :: judged self w (S n) rest
      | None => corrupt_record e :: judged self w n rest
      end
  end.

(** [f] is a record the scan can make of the entry [e] between the
    readings [lo] and [hi] of the clock: that of a corrupt file when [e] has
    no readable [stored_at], or when [timedelta] refuses [max_age_days];
    else that of a file judged at one of these readings. *)
Definition classified {rt : PyRuntime} (self : FileCacheStorage.t) (w : world)
    (lo hi : nat) (e : DirEntry) (f : FileCacheStorage.cache_file) : Prop :=
  FileCacheStorage.path f = entry_path e /\
  FileCacheStorage.size f = entry_size e /\
  match lookup_file w (entry_path e) ≫= stored_at_of with
  | Some t =>
      if Z.abs (FileCacheStorage.max_age_days self) >? timedelta_max_days
      then f = corrupt_record e
      else exists k, (lo <= k < hi)%nat /\ f = judged_record self e t (clock w k)
  | None => f = corrupt_record e
  end.



(** The statement of C9, for one cleanup pass run in the world [w] whose
    cache directory is [files].  Every file [p] without a readable
    [stored_at] is recorded as expired and stored at [datetime.min], is
    among the expired files the pass removes, and is gone afterwards: no
    condition on the budget.  A record [q] that the pass finds live, in a
    directory within the budget, is still there afterwards, while the file
    [p] that its [local_path] names is gone when [p] holds no readable
    record. *)
Definition payload_files_removed {rt : PyRuntime} (self : FileCacheStorage.t)
    (w : world) (files : gmap string string) : Prop :=
  exists n cache_files expired live k,
    cache_files = judged self w (ticks w) (dir_entries files) /\
    expired ≡ₚ filter (fun f => FileCacheStorage.is_expired f = true) cache_files /\
    live ≡ₚ filter (fun f => FileCacheStorage.is_expired f = false) cache_files /\
    let gone := map FileCacheStorage.path expired ++ map FileCacheStorage.path (take k live) in
    let w' := mkw (remove_all gone files) n (removed w ++ gone) w in
    FileCacheStorage._cleanup_oldest_files self w = (w', Ok tt) /\
    (forall p bytes,
       files !! p = Some bytes -> stored_at_of bytes = None ->
       (exists f, f ∈ expired /\ FileCacheStorage.path f = p /\
                  FileCacheStorage.stored_at f = datetime_min /\
                  FileCacheStorage.is_expired f = true) /\
       lookup_file w' p = None) /\
    (forall q text entry f p bytes,
       files !! q = Some text ->
       json_loads text = Some (PDict entry) ->
       dict_get "local_path" entry = Some (PStr p) ->
       f ∈ live -> FileCacheStorage.path f = q ->
       dir_size files <= FileCacheStorage.max_total_size_bytes self ->
       files !! p = Some bytes -> stored_at_of bytes = None ->
       lookup_file w' q = Some text /\ lookup_file w' p = None).

(** [b.startswith("/")] *)
Definition starts_with_slash (b : string) : bool :=
  match b with
  | String c _ => Ascii.eqb c "/"%char
  | "" => false
  end.

(** What [os.path.join(a, b)] puts before a relative [b]. *)
Definition join_prefix (a : string) : string :=
  match a with
  | "" => ""
  | _ => if ends_with_slash a then a else a +:+ "/"
  end.

(** The [i]-th call of [requests.get] from now on, for [url], fails in a
    way the retry loop catches. *)
Definition request_fails (w : world) (url : string) (i : nat) : Prop :=
  match transport w (length (requested w) + i) url with
  | Respond st _ => 400 <= st < 600
  | Fail e => is_RequestException e = true
  end.

(** C1 as the specification states it: [store] does not raise, and when its
    [try] block fails, the file of the key is what it was before the call,
    or is absent. *)
Definition store_failure_keeps_entry {rt : PyRuntime} (self : FileCacheStorage.t)
    (key : string) (value : pydict) (w : world) : Prop :=
  let p := FileCacheStorage._get_cache_path self key in
  let w' := fst (FileCacheStorage.store self key value w) in
  snd (FileCacheStorage.store self key value w) = Ok tt /\
  forall e, snd (FileCacheStorage.store_body self key value w) = Raise e ->
            lookup_file w' p = lookup_file w p \/ lookup_file w' p = None.

(** C3 as the specification states it: a payload file named by the
    [local_path] of a record adds nothing to the total that is compared
    with [max_total_size_bytes]. *)
Definition payload_adds_nothing {rt : PyRuntime} (self : FileCacheStorage.t)
    (w : world) : Prop :=
  forall files q text entry p,
    dir w = Some files ->
    files !! q = Some text ->
    json_loads text = Some (PDict entry) ->
    dict_get "local_path" entry = Some (PStr p) ->
    snd (FileCacheStorage._get_total_cache_size self w) = Ok (dir_size (delete p files)).

(** No expiry elapses after the call that has left the world [w']: the
    next reading of the clock (the one a [retrieve] run in [w'] makes) is at
    most [max_age_days] after the last reading made (the one [store] stamps
    its record with). *)
Definition fresh_at_next_reading (self : FileCacheStorage.t) (w' : world) : Prop :=
  clock w' (ticks w') - clock w' (pred (ticks w'))
  <= timedelta_days (FileCacheStorage.max_age_days self).

(** [entry] has the fields of [value], and a [stored_at] that
    [datetime.fromisoformat] reads. *)
Definition superset_with_stored_at {rt : PyRuntime} (value entry : pydict) : Prop :=
  (forall k, k <> "stored_at" -> dict_get k entry = dict_get k value) /\
  exists t, dict_get "stored_at" entry = Some (PStr (isoformat t)) /\
            fromisoformat (isoformat t) = Some t.

(** C4 as the specification states it, for the payload [value]. *)
Definition store_then_retrieve_returns {rt : PyRuntime} (self : FileCacheStorage.t)
    (key : string) (value : pydict) (w : world) : Prop :=
  fresh_at_next_reading self (fst (FileCacheStorage.store self key value w)) ->
  exists entry,
    snd (FileCacheStorage.retrieve self key (fst (FileCacheStorage.store self key value w)))
    = Ok (Some (PDict entry)) /\
    superset_with_stored_at value entry.

(** The world after [requests.get] was called for [urls]. *)
Definition add_requests (urls : list string) (w : world) : world :=
  World (dir w) (clock w) (ticks w) (transport w) (requested w ++ urls) (removed w).

(** The path of the payload file of a track. *)
Definition track_path {rt : PyRuntime} (self : TrackUrlCache.t) (track_id : string) : string :=
  os_path_join (FileCacheStorage.cache_dir (TrackUrlCache.storage self))
               (md5_hexdigest track_id +:+ ".track").

(** The record of [key], if there is a readable one, has no [local_path]:
    the key is not cached as a track. *)
Definition uncached {rt : PyRuntime} (self : FileCacheStorage.t) (key : string)
    (w : world) : Prop :=
  forall text d,
    lookup_file w (FileCacheStorage._get_cache_path self key) = Some text ->
    json_loads text = Some (PDict d) ->
    dict_get "local_path" d = None.

(** The lookup that [_cache_track_url] starts with misses: [retrieve]
    returns [None] (no record, an unreadable or an expired one), or a record
    without [local_path]. *)
Definition lookup_misses {rt : PyRuntime} (self : FileCacheStorage.t) (key : string)
    (w : world) : Prop :=
  forall d,
    snd (FileCacheStorage.retrieve self key w) = Ok (Some (PDict d)) ->
    dict_get "local_path" d = None.


(** What [retrieve] does, by the state of the record of the key: no
    readable record, a [max_age_days] that [timedelta] refuses, an expired
    record, a live record. *)
Inductive retrieve_outcome {rt : PyRuntime} (self : FileCacheStorage.t) (key : string)
    (w : world) : world -> option pyval -> Prop :=
| retrieve_absent :
    (lookup_file w (FileCacheStorage._get_cache_path self key) ≫= stored_at_of) = None ->
    retrieve_outcome self key w w None
| retrieve_overflow text t :
    lookup_file w (FileCacheStorage._get_cache_path self key) = Some text ->
    stored_at_of text = Some t ->
    Z.abs (FileCacheStorage.max_age_days self) > timedelta_max_days ->
    retrieve_outcome self key w (tick w) None
| retrieve_purged files text t :
    dir w = Some files ->
    files !! FileCacheStorage._get_cache_path self key = Some text ->
    stored_at_of text = Some t ->
    Z.abs (FileCacheStorage.max_age_days self) <= timedelta_max_days ->
    clock w (ticks w) - t > timedelta_days (FileCacheStorage.max_age_days self) ->
    retrieve_outcome self key w
      (after_removals (delete (FileCacheStorage._get_cache_path self key) files)
                      [FileCacheStorage._get_cache_path self key] (tick w))
      None
| retrieve_live text d t :
    lookup_file w (FileCacheStorage._get_cache_path self key) = Some text ->
    json_loads text = Some (PDict d) ->
    stored_at_of text = Some t ->
    Z.abs (FileCacheStorage.max_age_days self) <= timedelta_max_days ->
    clock w (ticks w) - t <= timedelta_days (FileCacheStorage.max_age_days self) ->
    retrieve_outcome self key w (tick w) (Some (PDict d)).

(** The metadata record [_cache_track_url] builds for a fetched track. *)
Definition track_metadata {rt : PyRuntime} (cache : TrackUrlCache.t) (track_id body : string)
    (additional_metadata : option pydict) : pydict :=
  dict_update [("track_id", PStr track_id);
               ("local_path", PStr (track_path cache track_id));
               ("size_bytes", PInt (st_size body))]
              (match additional_metadata with
               | Some ((_ :: _) as d) => d
               | _ => []
               end).

(** The value of field [k] in the record of a fetched track: that of the
    additional metadata where it has the key (its last item for the key,
    should the list repeat one), else that of the three fields the cache
    sets. *)
Definition track_field {rt : PyRuntime} (cache : TrackUrlCache.t) (track_id body : string)
    (additional_metadata : option pydict) (k : string) : option pyval :=
  match additional_metadata ≫= (fun d => dict_get k (rev d)) with
  | Some v => Some v
  | None =>
      dict_get k [("track_id", PStr track_id);
                  ("local_path", PStr (track_path cache track_id));
                  ("size_bytes", PInt (st_size body))]
  end.



(** The second part of C8 as the specification states it: when a call of
    [cache_track_url] has fetched a track and returned its path, the next
    call for the same key, with no expiry in between, returns the same path
    and does not call [requests.get]. *)
Definition second_call_returns_same_path {rt : PyRuntime} (self : TrackUrlCache.t)
    (track_id url : string) (additional_metadata : option pydict) (w : world) : Prop :=
  fresh_at_next_reading (TrackUrlCache.storage self)
    (fst (TrackUrlCache.cache_track_url self track_id url additional_metadata true w)) ->
  forall w1 path,
    TrackUrlCache.cache_track_url self track_id url additional_metadata true w
    = (w1, Ok (PStr path)) ->
    requested w1 = requested w ++ [url] ->
    exists w2,
      TrackUrlCache.cache_track_url self track_id url additional_metadata true w1
      = (w2, Ok (PStr path)) /\
      requested w2 = requested w1.

(** ** Concrete caches and worlds

    The caches and worlds on which the statements are evaluated, in the
    runtime [Sample.runtime]. *)

Module Scenario.

(** 2026-11-04T12:30:15, as a clock reading. *)
Definition noon : Z := 63929392215000000.

Definition storage : FileCacheStorage.t :=
  {| FileCacheStorage.cache_dir := ".cache/tracks";
     FileCacheStorage.max_age_days := 30;
     FileCacheStorage.max_total_size_bytes := 1048576 |}.

(** The same cache directory under a budget of 200 bytes. *)
Definition small_storage : FileCacheStorage.t :=
  {| FileCacheStorage.cache_dir := ".cache/tracks";
     FileCacheStorage.max_age_days := 30;
     FileCacheStorage.max_total_size_bytes := 200 |}.

Definition cache : TrackUrlCache.t :=
  {| TrackUrlCache.storage := storage;
     TrackUrlCache.download_timeout := 30;
     TrackUrlCache.max_retries := 3 |}.


(** A network on which every request fails, and one on which every request
    is answered. *)
Definition offline : nat -> string -> http_result := fun _ _ => Fail ConnectionError.
Definition online : nat -> string -> http_result :=
  fun _ _ => Respond 200 "Test track content".

(** A network on which the first two requests time out and the later ones
    are answered, and one on which [requests.get] raises an exception that is
    no [RequestException]. *)
Definition flaky : nat -> string -> http_result :=
  fun n _ => if (n <? 2)%nat then Fail Timeout else Respond 200 "Test track content".

(** A world whose clock stands at [noon]. *)
Definition world_of (files : gmap string string) (net : nat -> string -> http_result) : world :=
  World (Some files) (fun _ => noon) 0 net [] [].

(** The text of the record [store] writes for [fields] at time [t]. *)
Definition record (fields : pydict) (t : Z) : string :=
  fst (Sample.json_dump_text
         (PDict (dict_set "stored_at" (PStr (Sample.isoformat t)) fields))).

Definition meta_path (key : string) : string :=
  FileCacheStorage._get_cache_path (rt := Sample.runtime) storage key.

Definition payload_path (key : string) : string :=
  track_path (rt := Sample.runtime) cache key.

(** The record of a fetched track. *)
Definition track_record (key : string) (t : Z) : string :=
  record [("track_id", PStr key);
          ("local_path", PStr (payload_path key));
          ("size_bytes", PInt 18)] t.

Definition url : string := "http://example.com/track_1".

(** A payload that [json.dump] cannot write. *)
Definition unserialisable : pydict := [("cover", PObject "object")].

(** Extra metadata that sets [local_path] itself. *)
Definition relocating : option pydict := Some [("local_path", PStr "/music/track_1.flac")].

(** An empty cache directory. *)
Definition empty_offline : world := world_of ∅ offline.
Definition empty_online : world := world_of ∅ online.

(** A directory with one record, stored at [noon], without [local_path]. *)
Definition with_entry : world :=
  world_of {[ meta_path "track_1" := record [("url", PStr url)] noon ]} offline.

(** A directory with one fetched track: its record and its payload file. *)
Definition track_files : gmap string string :=
  {[ meta_path "track_1" := track_record "track_1" noon;
     payload_path "track_1" := "Test track content" ]}.
Definition with_track : world := world_of track_files offline.

(** A directory with one record stored 31 days before [noon]. *)
Definition expired_files : gmap string string :=
  {[ meta_path "track_1" := track_record "track_1" (noon - timedelta_days 31) ]}.
Definition with_expired : world := world_of expired_files offline.
Definition with_expired_online : world := world_of expired_files online.

(** A directory with an expired record, two live records (stored 2 days
    and 1 day before [noon]) and the payload file of the newest one. *)
Definition crowded_files : gmap string string :=
  {[ meta_path "track_1" := track_record "track_1" (noon - timedelta_days 31);
     meta_path "track_2" := track_record "track_2" (noon - timedelta_days 2);
     meta_path "track_3" := track_record "track_3" (noon - timedelta_days 1);
     payload_path "track_3" := "Test track content" ]}.
Definition crowded : world := world_of crowded_files offline.

(** A world whose cache directory is missing. *)
Definition no_directory : world := World None (fun _ => noon) 0 offline [] [].

(** A directory in which the file of the key is no json text. *)
Definition garbage_files : gmap string string := {[ meta_path "track_1" := "not json" ]}.
Definition with_garbage : world := world_of garbage_files offline.

(** The record of [with_entry], as a directory. *)
Definition entry_files : gmap string string :=
  {[ meta_path "track_1" := record [("url", PStr url)] noon ]}.

(** The cache directory under a [max_age_days] of a thousand million days,
    one more than [timedelta] takes. *)
Definition eternal_storage : FileCacheStorage.t :=
  {| FileCacheStorage.cache_dir := ".cache/tracks";
     FileCacheStorage.max_age_days := 1000000000;
     FileCacheStorage.max_total_size_bytes := 1048576 |}.

(** The world a first fetch of [track_1] leaves, from an empty directory. *)
Definition fetched : world :=
  fst (TrackUrlCache._cache_track_url (rt := Sample.runtime) cache "track_1" url None
         empty_online).

(** Extra metadata naming the artist and the album of a track. *)
Definition tagged : option pydict :=
  Some [("artist", PStr "Test Artist"); ("album", PStr "Test Album")].

End Scenario.

Section Proofs.
Context {rt : PyRuntime}.
Implicit Types (w : world) (files : gmap string string) (self : FileCacheStorage.t).

Lemma retrieve_eq self key w :
  FileCacheStorage.retrieve self key w =
    let p := FileCacheStorage._get_cache_path self key in
    match lookup_file w p with
    | None => (w, Ok None)
    | Some text =>
        match stored_at_of text, json_loads text with
        | Some t, Some entry =>
            if Z.abs (FileCacheStorage.max_age_days self) >? timedelta_max_days
            then (tick w, Ok None)
            else if clock w (ticks w) - t
                    >? timedelta_days (FileCacheStorage.max_age_days self)
            then (match dir w with
                  | Some files => after_removals (delete p files) [p] (tick w)
                  | None => w
                  end, Ok None)
            else (tick w, Ok (Some entry))
        | _, _ => (w, Ok None)
        end
    end.
Proof.
  unfold FileCacheStorage.retrieve, FileCacheStorage.retrieve_body, try_except, bind,
    os_path_exists, read_file, lookup_file, stored_at_of, json_load, py_get,
    datetime_fromisoformat, datetime_now, timedelta, os_remove, logger_log, ret, raise.
  cbn zeta.
  destruct (dir w) as [files|] eqn:Hd; [|done].
  destruct (files !! _) as [text|] eqn:Hf; cbn; [|done].
  rewrite Hd, Hf; cbn.
  destruct (json_loads text) as [[| | | | |d|]|]; cbn; try done.
  destruct (dict_get "stored_at" d) as [[]|]; cbn; try done.
  all: destruct (fromisoformat _); cbn; try done.
  all: destruct (Z.abs _ >? _); cbn; try done.
  all: destruct (_ >? _); cbn; try done.
  all: rewrite ?Hd, ?Hf; cbn; try done.
Qed.

(** The two ways in which [retrieve] passes the age test. *)
Lemma retrieve_in_range self key w text t entry :
  lookup_file w (FileCacheStorage._get_cache_path self key) = Some text ->
  stored_at_of text = Some t ->
  json_loads text = Some entry ->
  Z.abs (FileCacheStorage.max_age_days self) <= timedelta_max_days ->
  FileCacheStorage.retrieve self key w =
    if clock w (ticks w) - t >? timedelta_days (FileCacheStorage.max_age_days self)
    then (match dir w with
          | Some files =>
              after_removals (delete (FileCacheStorage._get_cache_path self key) files)
                             [FileCacheStorage._get_cache_path self key] (tick w)
          | None => w
          end, Ok None)
    else (tick w, Ok (Some entry)).
Proof.
  intros Hl Ht Hj Hrange. rewrite retrieve_eq. cbn zeta. rewrite Hl, Ht, Hj.
  destruct (Z.gtb_spec (Z.abs (FileCacheStorage.max_age_days self)) timedelta_max_days);
    [lia|done].
Qed.

Lemma mkw_self w files : dir w = Some files -> mkw files (ticks w) (removed w) w = w.
Proof. destruct w; cbn; intros ->; reflexivity. Qed.

Lemma sum_sizes_fold (l : list (string * string)) (a : Z) :
  fold_left (fun total entry => total + entry_size entry)
    (map (fun pc => {| entry_path := fst pc; entry_size := st_size (snd pc) |}) l) a
  = a + foldr (fun pc total => st_size (snd pc) + total) 0 l.
Proof.
  revert a; induction l as [|pc l IH]; intros a; cbn; [lia|].
  rewrite IH. lia.
Qed.

Lemma total_size_eq self w :
  FileCacheStorage._get_total_cache_size self w =
    match dir w with
    | Some files => (w, Ok (dir_size files))
    | None => (w, Raise FileNotFoundError)
    end.
Proof.
  unfold FileCacheStorage._get_total_cache_size, bind, os_scandir, ret, dir_size, dir_entries.
  destruct (dir w); [|done]. by rewrite sum_sizes_fold.
Qed.

Lemma sum_sizes_perm (l1 l2 : list (string * string)) :
  l1 ≡ₚ l2 ->
  foldr (fun pc total => st_size (snd pc) + total) 0 l1
  = foldr (fun pc total => st_size (snd pc) + total) 0 l2.
Proof. induction 1; cbn; lia. Qed.

Lemma dir_size_insert files p bytes :
  files !! p = None -> dir_size (<[p := bytes]> files) = st_size bytes + dir_size files.
Proof.
  intros Hp. unfold dir_size.
  by rewrite (sum_sizes_perm _ _ (map_to_list_insert files p bytes Hp)).
Qed.

Lemma dir_size_delete files p bytes :
  files !! p = Some bytes -> dir_size files = st_size bytes + dir_size (delete p files).
Proof.
  intros Hp. unfold dir_size.
  by rewrite <- (sum_sizes_perm _ _ (map_to_list_delete files p bytes Hp)).
Qed.

Lemma dir_size_empty : dir_size ∅ = 0.
Proof. unfold dir_size. by rewrite map_to_list_empty. Qed.

Lemma st_size_nonneg bytes : 0 <= st_size bytes.
Proof. unfold st_size. lia. Qed.

Lemma dir_size_nonneg files : 0 <= dir_size files.
Proof.
  unfold dir_size. induction (map_to_list files) as [|pc l IH]; cbn; [lia|].
  pose proof (st_size_nonneg (snd pc)). lia.
Qed.

Lemma scan_entry_eq self e w :
  FileCacheStorage.cleanup_scan_entry self e w =
    match lookup_file w (entry_path e) ≫= stored_at_of with
    | Some t =>
        (tick w,
         Ok (if Z.abs (FileCacheStorage.max_age_days self) >? timedelta_max_days
             then corrupt_record e
             else judged_record self e t (clock w (ticks w))))
    | None => (w, Ok (corrupt_record e))
    end.
Proof.
  unfold FileCacheStorage.cleanup_scan_entry, try_except, bind, read_file, lookup_file,
    stored_at_of, json_load, py_get, datetime_fromisoformat, datetime_now, timedelta,
    ret, raise.
  destruct (dir w) as [files|]; cbn; [|done].
  destruct (files !! _) as [text|]; cbn; [|done].
  destruct (json_loads text) as [[| | | | |d|]|]; cbn; try done.
  destruct (dict_get "stored_at" d) as [[]|]; cbn; try done.
  all: destruct (fromisoformat _); cbn; try done.
  all: by destruct (Z.abs _ >? _).
Qed.

Lemma bind_eq {A B} (m : M A) (f : A -> M B) w :
  bind m f w = match m w with
               | (w', Ok a) => f a w'
               | (w', Raise e) => (w', Raise e)
               end.
Proof. reflexivity. Qed.

Lemma classified_mono self w lo hi lo' hi' e f :
  (lo' <= lo)%nat -> (hi <= hi')%nat ->
  classified self w lo hi e f -> classified self w lo' hi' e f.
Proof.
  intros Hlo Hhi (Hp & Hs & Hc). split; [done|]. split; [done|].
  destruct (lookup_file w (entry_path e) ≫= stored_at_of) as [t|]; [|done].
  destruct (Z.abs _ >? _); [done|].
  destruct Hc as (k & Hk & ->). exists k. split; [lia|done].
Qed.

(** The scan of a directory: the files stay, the clock is read at most once
    for each entry, and the records are those of [judged]. *)
Lemma scan_run self w files rm es : forall n,
  dir w = Some files ->
  exists n' cfs,
    FileCacheStorage.cleanup_scan self es (mkw files n rm w)
      = (mkw files n' rm w, Ok cfs) /\
    (n <= n' <= n + length es)%nat /\
    Forall2 (classified self w n n') es cfs /\
    cfs = judged self w n es.
Proof.
  induction es as [|e es IH]; intros n Hd.
  - exists n, []. split; [done|]. split; [cbn; lia|]. split; [constructor|done].
  - change (FileCacheStorage.cleanup_scan self (e :: es))
      with (bind (FileCacheStorage.cleanup_scan_entry self e)
              (fun f => bind (FileCacheStorage.cleanup_scan self es)
                          (fun fs => ret (f :: fs)))).
    rewrite bind_eq, scan_entry_eq.
    assert (Hsame : lookup_file (mkw files n rm w) (entry_path e)
                    = lookup_file w (entry_path e)).
    { unfold lookup_file. cbn. by rewrite Hd. }
    rewrite Hsame. cbn [judged].
    destruct (lookup_file w (entry_path e) ≫= stored_at_of) as [t|] eqn:Ht.
    + destruct (IH (S n) Hd) as (n' & cfs & Hrun & Hn & Hall & Hj).
      change (tick (mkw files n rm w)) with (mkw files (S n) rm w).
      rewrite bind_eq, Hrun. unfold ret.
      eexists n', (_ :: cfs). split; [reflexivity|]. split; [cbn [length]; lia|]. split.
      * constructor.
        -- unfold classified. rewrite Ht. cbn [mkw clock ticks].
           destruct (Z.abs _ >? _); [done|].
           split; [done|]. split; [done|]. exists n. split; [lia|done].
        -- eapply Forall2_impl; [exact Hall|].
           intros e' f'. apply classified_mono; lia.
      * by rewrite <- Hj.
    + destruct (IH n Hd) as (n' & cfs & Hrun & Hn & Hall & Hj).
      rewrite bind_eq, Hrun. unfold ret.
      eexists n', (_ :: cfs). split; [reflexivity|]. split; [cbn [length]; lia|]. split.
      * constructor; [|done]. unfold classified. by rewrite Ht.
      * by rewrite <- Hj.
Qed.

(** *** Sorting by [stored_at] *)

Lemma insert_by_stored_at_perm f l :
  FileCacheStorage.insert_by_stored_at f l ≡ₚ f :: l.
Proof.
  induction l as [|g l IH]; cbn; [done|].
  destruct (_ <=? _); [done|].
  rewrite IH. apply Permutation_swap.
Qed.

Lemma sort_by_stored_at_perm l : FileCacheStorage.sort_by_stored_at l ≡ₚ l.
Proof.
  induction l as [|f l IH]; cbn; [done|].
  by rewrite insert_by_stored_at_perm, IH.
Qed.



(** *** Removing files *)

Lemma remove_all_app ps qs files :
  remove_all (ps ++ qs) files = remove_all qs (remove_all ps files).
Proof. unfold remove_all. by rewrite fold_left_app. Qed.

Lemma lookup_remove_all ps files q :
  remove_all ps files !! q = if decide (q ∈ ps) then None else files !! q.
Proof.
  revert files; induction ps as [|p ps IH]; intros files; cbn.
  - by rewrite decide_False by set_solver.
  - rewrite IH. destruct (decide (q ∈ ps)) as [Hin|Hin].
    + by rewrite decide_True by set_solver.
    + destruct (decide (q = p)) as [->|Hne].
      * rewrite decide_True by apply list_elem_of_here. apply lookup_delete_eq.
      * rewrite decide_False; [by apply lookup_delete_ne|].
        rewrite elem_of_cons. by intros [?|?].
Qed.

Lemma os_remove_present p files n rm w :
  is_Some (files !! p) ->
  os_remove p (mkw files n rm w) = (mkw (delete p files) n (rm ++ [p]) w, Ok tt).
Proof. intros [b Hb]. unfold os_remove; cbn. by rewrite Hb. Qed.

Lemma remove_expired_run w n fs : forall files rm,
  NoDup (map FileCacheStorage.path fs) ->
  (forall f, f ∈ fs -> is_Some (files !! FileCacheStorage.path f)) ->
  FileCacheStorage.cleanup_remove_expired fs (mkw files n rm w)
  = (mkw (remove_all (map FileCacheStorage.path fs) files) n
         (rm ++ map FileCacheStorage.path fs) w, Ok tt).
Proof.
  induction fs as [|f fs IH]; intros files rm Hnd Hex.
  - cbn. unfold ret. by rewrite app_nil_r.
  - change (FileCacheStorage.cleanup_remove_expired (f :: fs))
      with (bind (try_except (os_remove (FileCacheStorage.path f)) (fun _ => ret tt))
              (fun _ => FileCacheStorage.cleanup_remove_expired fs)).
    rewrite bind_eq. unfold try_except.
    rewrite os_remove_present by (apply Hex; set_solver).
    cbn in Hnd. apply NoDup_cons in Hnd as [Hnotin Hnd].
    rewrite IH; [|done|].
    + cbn. by rewrite <- app_assoc.
    + intros g Hg. rewrite lookup_delete_ne; [apply Hex; set_solver|].
      intros Heq. apply Hnotin. rewrite Heq. apply list_elem_of_fmap. eauto.
Qed.

Lemma remove_oldest_run self w n fs : forall files rm,
  NoDup (map FileCacheStorage.path fs) ->
  (forall f, f ∈ fs -> is_Some (files !! FileCacheStorage.path f)) ->
  exists k,
    (k <= length fs)%nat /\
    FileCacheStorage.cleanup_remove_oldest self fs (mkw files n rm w)
    = (mkw (remove_all (map FileCacheStorage.path (take k fs)) files) n
           (rm ++ map FileCacheStorage.path (take k fs)) w, Ok tt) /\
    (forall j, (0 < j < k)%nat ->
       FileCacheStorage.max_total_size_bytes self
       < dir_size (remove_all (map FileCacheStorage.path (take j fs)) files)) /\
    (k = length fs \/
     dir_size (remove_all (map FileCacheStorage.path (take k fs)) files)
     <= FileCacheStorage.max_total_size_bytes self) /\
    (fs <> [] -> (0 < k)%nat).
Proof.
  induction fs as [|f fs IH]; intros files rm Hnd Hex.
  - exists 0%nat. cbn. unfold ret. rewrite app_nil_r.
    repeat split; try done; try lia; by left.
  - change (FileCacheStorage.cleanup_remove_oldest self (f :: fs))
      with (bind (attempt (bind (os_remove (FileCacheStorage.path f))
                            (fun _ => bind (FileCacheStorage._get_total_cache_size self)
                               (fun total => ret (total <=? FileCacheStorage.max_total_size_bytes self)))))
              (fun r => match r with
                        | Ok true => ret tt
                        | Ok false | Raise _ => FileCacheStorage.cleanup_remove_oldest self fs
                        end)).
    rewrite bind_eq. unfold attempt. rewrite bind_eq.
    rewrite os_remove_present by (apply Hex; set_solver).
    rewrite bind_eq, total_size_eq. cbn [dir mkw]. unfold ret at 1.
    cbn in Hnd. apply NoDup_cons in Hnd as [Hnotin Hnd].
    destruct (Z.leb_spec (dir_size (delete (FileCacheStorage.path f) files))
                         (FileCacheStorage.max_total_size_bytes self)) as [Hle|Hgt].
    + exists 1%nat. cbn. repeat split; try done; try lia; by right.
    + destruct (IH (delete (FileCacheStorage.path f) files) (rm ++ [FileCacheStorage.path f]) Hnd)
        as (k & Hk & Hrun & Hbefore & Hstop & _).
      { intros g Hg. rewrite lookup_delete_ne; [apply Hex; set_solver|].
        intros Heq. apply Hnotin. rewrite Heq. apply list_elem_of_fmap. eauto. }
      exists (S k). cbn. rewrite Hrun, <- app_assoc. cbn.
      repeat split; try done; try lia.
      * intros [|j] Hj; [lia|]. cbn.
        destruct j as [|j]; [by rewrite take_0|].
        apply Hbefore. lia.
      * destruct Hstop as [->|Hstop]; [by left|by right].
Qed.

(** *** One cleanup pass *)

Lemma classified_paths self w lo hi es cfs :
  Forall2 (classified self w lo hi) es cfs ->
  map FileCacheStorage.path cfs = map entry_path es.
Proof. induction 1 as [|e f es cfs (Hp & _) _ IH]; cbn; [done|]. by rewrite Hp, IH. Qed.

Lemma dir_entries_paths files : map entry_path (dir_entries files) = (map_to_list files).*1.
Proof. unfold dir_entries. rewrite map_map. reflexivity. Qed.

Lemma path_unique (l : list FileCacheStorage.cache_file) f g :
  NoDup (map FileCacheStorage.path l) -> f ∈ l -> g ∈ l ->
  FileCacheStorage.path f = FileCacheStorage.path g -> f = g.
Proof.
  induction l as [|h l IH]; cbn; intros Hnd Hf Hg Heq; [by apply elem_of_nil in Hf|].
  apply NoDup_cons in Hnd as [Hnotin Hnd].
  apply elem_of_cons in Hf as [->|Hf]; apply elem_of_cons in Hg as [->|Hg]; try done.
  - exfalso. apply Hnotin. rewrite Heq. apply list_elem_of_fmap. eauto.
  - exfalso. apply Hnotin. rewrite <- Heq. apply list_elem_of_fmap. eauto.
  - by apply IH.
Qed.

Lemma cleanup_run self w files :
  dir w = Some files ->
  exists n cfs k,
    (Forall2 (classified self w (ticks w) n) (dir_entries files) cfs /\
     (ticks w <= n <= ticks w + length (dir_entries files))%nat /\
     cfs = judged self w (ticks w) (dir_entries files)) /\
    let expired :=
      FileCacheStorage.sort_by_stored_at
        (filter (fun f => FileCacheStorage.is_expired f = true) cfs) in
    let live :=
      FileCacheStorage.sort_by_stored_at
        (filter (fun f => FileCacheStorage.is_expired f = false) cfs) in
    let gone (j : nat) :=
      map FileCacheStorage.path expired ++ map FileCacheStorage.path (take j live) in
    (k <= length live)%nat /\
    FileCacheStorage._cleanup_oldest_files self w
    = (mkw (remove_all (gone k) files) n (removed w ++ gone k) w, Ok tt) /\
    (forall j, (j < k)%nat ->
       FileCacheStorage.max_total_size_bytes self < dir_size (remove_all (gone j) files)) /\
    (k = length live \/
     dir_size (remove_all (gone k) files) <= FileCacheStorage.max_total_size_bytes self).
Proof.
  intros Hd. destruct w as [d c t tr rq rm]; cbn in Hd; subst d.
  set (w := World (Some files) c t tr rq rm).
  destruct (scan_run self w files rm (dir_entries files) t eq_refl)
    as (n & cfs & Hscan & Hn & Hcl & Hjudged).
  change (mkw files t rm w) with w in Hscan.
  pose proof (classified_paths _ _ _ _ _ _ Hcl) as Hpaths.
  rewrite dir_entries_paths in Hpaths.
  assert (Hnd : NoDup (map FileCacheStorage.path cfs)).
  { rewrite Hpaths. apply NoDup_fst_map_to_list. }
  assert (Hex : forall f, f ∈ cfs -> is_Some (files !! FileCacheStorage.path f)).
  { intros f Hf.
    assert (Hin : FileCacheStorage.path f ∈ (map_to_list files).*1).
    { rewrite <- Hpaths. apply list_elem_of_fmap. eauto. }
    apply list_elem_of_fmap in Hin as ([p b] & -> & Hin).
    apply elem_of_map_to_list in Hin. eauto. }
  set (expired := FileCacheStorage.sort_by_stored_at
                    (filter (fun f => FileCacheStorage.is_expired f = true) cfs)).
  set (live := FileCacheStorage.sort_by_stored_at
                 (filter (fun f => FileCacheStorage.is_expired f = false) cfs)).
  assert (Hexp_in : forall f, f ∈ expired -> f ∈ cfs /\ FileCacheStorage.is_expired f = true).
  { intros f Hf. unfold expired in Hf. rewrite sort_by_stored_at_perm in Hf.
    apply list_elem_of_filter in Hf. tauto. }
  assert (Hlive_in : forall f, f ∈ live -> f ∈ cfs /\ FileCacheStorage.is_expired f = false).
  { intros f Hf. unfold live in Hf. rewrite sort_by_stored_at_perm in Hf.
    apply list_elem_of_filter in Hf. tauto. }
  assert (Hnd_exp : NoDup (map FileCacheStorage.path expired)).
  { unfold expired. rewrite sort_by_stored_at_perm.
    eapply sublist_NoDup; [exact Hnd|]. apply fmap_sublist, sublist_filter. }
  assert (Hnd_live : NoDup (map FileCacheStorage.path live)).
  { unfold live. rewrite sort_by_stored_at_perm.
    eapply sublist_NoDup; [exact Hnd|]. apply fmap_sublist, sublist_filter. }
  assert (Hlive_ex : forall f, f ∈ live ->
            is_Some (remove_all (map FileCacheStorage.path expired) files
                     !! FileCacheStorage.path f)).
  { intros f Hf. rewrite lookup_remove_all.
    destruct (Hlive_in f Hf) as [Hfc Hfl].
    rewrite decide_False; [by apply Hex|].
    intros Hin. apply list_elem_of_fmap in Hin as (g & Heq & Hg).
    destruct (Hexp_in g Hg) as [Hgc Hge].
    assert (f = g) by exact (path_unique cfs f g Hnd Hfc Hgc Heq). subst g. congruence. }
  assert (Hphase1 :
    FileCacheStorage.cleanup_remove_expired expired (mkw files n rm w)
    = (mkw (remove_all (map FileCacheStorage.path expired) files) n
           (rm ++ map FileCacheStorage.path expired) w, Ok tt)).
  { apply remove_expired_run; [done|]. intros f Hf. apply Hex. by apply Hexp_in. }
  destruct (remove_oldest_run self w n live
              (remove_all (map FileCacheStorage.path expired) files)
              (rm ++ map FileCacheStorage.path expired) Hnd_live Hlive_ex)
    as (k & Hk & Hphase2 & Hbefore & Hstop & Hpos).
  assert (Hrun_prefix : forall (rest : list DirEntry -> list FileCacheStorage.cache_file -> M unit),
    (entries <- os_scandir ;; cache_files <- FileCacheStorage.cleanup_scan self entries ;;
     rest entries cache_files) w = rest (dir_entries files) cfs (mkw files n rm w)).
  { intros rest. rewrite bind_eq. unfold os_scandir. cbn [dir w].
    rewrite bind_eq, Hscan. done. }
  unfold FileCacheStorage._cleanup_oldest_files.
  rewrite (Hrun_prefix (fun _ cache_files => _)).
  fold expired. fold live.
  rewrite bind_eq, Hphase1, bind_eq, total_size_eq. cbn [dir mkw].
  destruct (Z.gtb_spec (dir_size (remove_all (map FileCacheStorage.path expired) files))
                       (FileCacheStorage.max_total_size_bytes self)) as [Hover|Hwithin].
  - exists n, cfs, k. split; [exact (conj Hcl (conj Hn Hjudged))|]. cbn zeta. fold expired. fold live.
    split; [done|]. split.
    { rewrite Hphase2. rewrite remove_all_app, <- app_assoc. done. }
    split.
    + intros j Hj. rewrite remove_all_app.
      destruct j as [|j]; [by rewrite take_0|]. apply Hbefore. lia.
    + rewrite remove_all_app. done.
  - exists n, cfs, 0%nat. split; [exact (conj Hcl (conj Hn Hjudged))|]. cbn zeta. fold expired. fold live.
    split; [lia|]. rewrite take_0. cbn [map]. rewrite app_nil_r.
    split; [done|]. split; [intros j Hj; lia|]. right. lia.
Qed.

Lemma Forall2_elem_of_l {A B} (P : A -> B -> Prop) (l : list A) (k : list B) x :
  Forall2 P l k -> x ∈ l -> exists y, y ∈ k /\ P x y.
Proof.
  induction 1 as [|a b l k Hab _ IH]; intros Hx; [by apply elem_of_nil in Hx|].
  apply elem_of_cons in Hx as [->|Hx].
  - exists b. split; [apply list_elem_of_here|done].
  - destruct (IH Hx) as (y & Hy & HP). exists y. split; [by apply list_elem_of_further|done].
Qed.

Lemma classified_lookup self w lo hi files cfs p bytes :
  Forall2 (classified self w lo hi) (dir_entries files) cfs ->
  files !! p = Some bytes ->
  exists f, f ∈ cfs /\
    classified self w lo hi {| entry_path := p; entry_size := st_size bytes |} f.
Proof.
  intros Hcl Hp. eapply Forall2_elem_of_l; [exact Hcl|].
  unfold dir_entries. apply list_elem_of_fmap. exists (p, bytes). split; [done|].
  by apply elem_of_map_to_list.
Qed.

Lemma dir_size_remove_all ps files : dir_size (remove_all ps files) <= dir_size files.
Proof.
  revert files; induction ps as [|p ps IH]; intros files; cbn; [lia|].
  etransitivity; [apply IH|].
  destruct (files !! p) as [b|] eqn:Hp.
  - rewrite (dir_size_delete files p b Hp). pose proof (st_size_nonneg b). lia.
  - rewrite delete_id by done. lia.
Qed.


(** C9.  A cleanup pass on an existing cache directory records every file
    without a readable [stored_at] (so every payload file) as expired and
    stored at [datetime.min], and removes it among the expired files,
    whatever [max_total_size_bytes] is; a metadata record that the pass finds
    live can survive it while the payload file its [local_path] names is
    removed. *)
Theorem cleanup_removes_payload_files self w files :
  dir w = Some files ->
  payload_files_removed self w files.
Proof.
  intros Hd. unfold payload_files_removed.
  destruct (cleanup_run self w files Hd)
    as (n & cfs & k & (Hcl & _ & Hjudged) & Hk & Hrun & Hbefore & Hstop).
  set (expired := FileCacheStorage.sort_by_stored_at
                    (filter (fun f => FileCacheStorage.is_expired f = true) cfs)) in *.
  set (live := FileCacheStorage.sort_by_stored_at
                 (filter (fun f => FileCacheStorage.is_expired f = false) cfs)) in *.
  exists n, cfs, expired, live, k.
  split; [exact Hjudged|].
  split; [apply sort_by_stored_at_perm|].
  split; [apply sort_by_stored_at_perm|].
  cbn zeta in *. split; [exact Hrun|].
  assert (Hnd : NoDup (map FileCacheStorage.path cfs)).
  { rewrite (classified_paths _ _ _ _ _ _ Hcl), dir_entries_paths.
    apply NoDup_fst_map_to_list. }
  assert (Hunreadable : forall p bytes,
    files !! p = Some bytes -> stored_at_of bytes = None ->
    exists f, f ∈ expired /\ FileCacheStorage.path f = p /\
              FileCacheStorage.stored_at f = datetime_min /\
              FileCacheStorage.is_expired f = true).
  { intros p bytes Hp Hbad.
    destruct (classified_lookup self w _ _ files cfs p bytes Hcl Hp)
      as (f & Hf & _ & _ & Hcase).
    cbn in Hcase. unfold lookup_file in Hcase. rewrite Hd, Hp in Hcase.
    cbn in Hcase. rewrite Hbad in Hcase. subst f.
    exists (corrupt_record {| entry_path := p; entry_size := st_size bytes |}).
    split; [|done].
    unfold expired. rewrite sort_by_stored_at_perm. apply list_elem_of_filter. by split. }
  assert (Hgone : forall p bytes,
    files !! p = Some bytes -> stored_at_of bytes = None ->
    (remove_all (map FileCacheStorage.path expired
                 ++ map FileCacheStorage.path (take k live)) files) !! p = None).
  { intros p bytes Hp Hbad.
    destruct (Hunreadable p bytes Hp Hbad) as (f & Hf & Hpath & _).
    rewrite lookup_remove_all, decide_True; [done|].
    apply elem_of_app. left. apply list_elem_of_fmap. eauto. }
  split.
  - intros p bytes Hp Hbad. split; [by eapply Hunreadable|].
    unfold lookup_file. cbn. by eapply Hgone.
  - intros q text entry f p bytes Hq Hjson Hlocal Hflive Hfpath Hbudget Hp Hbad.
    split; [|unfold lookup_file; cbn; by eapply Hgone].
    assert (k = 0%nat) as ->.
    { destruct k as [|k]; [done|]. exfalso.
      pose proof (Hbefore 0%nat ltac:(lia)) as Hover.
      pose proof (dir_size_remove_all
                    (map FileCacheStorage.path expired
                     ++ map FileCacheStorage.path (take 0 live)) files).
      lia. }
    rewrite take_0. cbn [map]. rewrite app_nil_r.
    unfold lookup_file. cbn. rewrite lookup_remove_all, decide_False; [done|].
    intros Hin. apply list_elem_of_fmap in Hin as (g & Hpath & Hg).
    unfold expired in Hg. rewrite sort_by_stored_at_perm in Hg.
    apply list_elem_of_filter in Hg as [Hgexp Hg].
    unfold live in Hflive. rewrite sort_by_stored_at_perm in Hflive.
    apply list_elem_of_filter in Hflive as [Hflive Hf].
    assert (f = g) by (apply (path_unique cfs f g Hnd Hf Hg); congruence). subst g.
    congruence.
Qed.

(** *** [store] *)

Lemma store_body_run self key value w files :
  dir w = Some files ->
  exists files1 n rm gone,
    files1 = remove_all gone files /\
    (dir_size files + str_encoded_len (PDict value)
       <= FileCacheStorage.max_total_size_bytes self ->
     files1 = files /\ n = ticks w /\ rm = removed w) /\
    let doc := PDict (dict_set "stored_at" (PStr (isoformat (clock w n))) value) in
    FileCacheStorage.store_body self key value w
    = (mkw (<[FileCacheStorage._get_cache_path self key := fst (json_dump_text doc)]> files1)
           (S n) rm w,
       match snd (json_dump_text doc) with
       | Some e => Raise e
       | None => Ok tt
       end).
Proof.
  intros Hd.
  assert (Hpre : exists files1 n rm gone,
    files1 = remove_all gone files /\
    (dir_size files + str_encoded_len (PDict value)
       <= FileCacheStorage.max_total_size_bytes self ->
     files1 = files /\ n = ticks w /\ rm = removed w) /\
    (if dir_size files + str_encoded_len (PDict value)
          >? FileCacheStorage.max_total_size_bytes self
     then FileCacheStorage._cleanup_oldest_files self else ret tt) w
    = (mkw files1 n rm w, Ok tt)).
  { destruct (Z.gtb_spec (dir_size files + str_encoded_len (PDict value))
                         (FileCacheStorage.max_total_size_bytes self)) as [Hover|Hwithin].
    - destruct (cleanup_run self w files Hd) as (n & cfs & k & _ & _ & Hrun & _).
      cbn zeta in Hrun. eexists _, n, _, _. split; [reflexivity|]. split; [lia|]. exact Hrun.
    - exists files, (ticks w), (removed w), []. split; [done|]. split; [done|].
      unfold ret. by rewrite mkw_self. }
  destruct Hpre as (files1 & n & rm & gone & Hgone & Hsame & Hpre).
  exists files1, n, rm, gone. split; [done|]. split; [done|]. cbn zeta.
  unfold FileCacheStorage.store_body.
  rewrite bind_eq, total_size_eq, Hd. rewrite bind_eq, Hpre.
  unfold bind, datetime_now, open_truncate, json_dump, file_write, ret, raise. cbn.
  destruct (json_dump_text _) as [text [e|]]; unfold bind, set_dir; cbn.
  all: rewrite lookup_insert_eq; cbn; rewrite insert_insert_eq; done.
Qed.

Lemma store_body_no_dir self key value w :
  dir w = None ->
  FileCacheStorage.store_body self key value w = (w, Raise FileNotFoundError).
Proof.
  intros Hd. unfold FileCacheStorage.store_body. by rewrite bind_eq, total_size_eq, Hd.
Qed.

Lemma store_eq self key value w :
  FileCacheStorage.store self key value w
  = (fst (FileCacheStorage.store_body self key value w), Ok tt).
Proof.
  unfold FileCacheStorage.store, try_except.
  destruct (FileCacheStorage.store_body self key value w) as [w' [[]|e]]; done.
Qed.

(** C1, amended.  [store] never raises.  When its [try] block fails, the
    file of the key is what it was before the call, or is absent, or, when
    it is [json.dump] that raised after the file had been opened for
    writing, holds the text written up to the exception. *)
Theorem store_never_raises self key value w :
  let p := FileCacheStorage._get_cache_path self key in
  let w' := fst (FileCacheStorage.store self key value w) in
  snd (FileCacheStorage.store self key value w) = Ok tt /\
  forall e, snd (FileCacheStorage.store_body self key value w) = Raise e ->
    lookup_file w' p = lookup_file w p \/
    lookup_file w' p = None \/
    exists now,
      let doc := PDict (dict_set "stored_at" (PStr (isoformat now)) value) in
      snd (json_dump_text doc) = Some e /\
      lookup_file w' p = Some (fst (json_dump_text doc)).
Proof.
  cbn zeta. rewrite store_eq. split; [done|]. cbn [fst].
  intros e He.
  destruct (dir w) as [files|] eqn:Hd.
  - destruct (store_body_run self key value w files Hd)
      as (files1 & n & rm & gone & _ & _ & Hrun).
    cbn zeta in Hrun. rewrite Hrun in He |- *. cbn [fst snd] in *.
    right. right. exists (clock w n). cbn zeta.
    destruct (snd (json_dump_text _)) as [e'|]; [|done].
    split; [congruence|]. unfold lookup_file. cbn. apply lookup_insert_eq.
  - rewrite store_body_no_dir by done. by left.
Qed.

(** C7.  [retrieve] on a record stored more than [max_age_days] ago returns
    [None] and removes the file of the key; after that the file does not
    exist, and [retrieve] returns [None] again.  The age is compared with
    [timedelta(days=max_age_days)], which exists up to [timedelta_max_days];
    two datetimes are never that far apart, so that no record is older than
    a larger [max_age_days]. *)
Theorem retrieve_expired_removes self key w files text t :
  let p := FileCacheStorage._get_cache_path self key in
  dir w = Some files ->
  files !! p = Some text ->
  stored_at_of text = Some t ->
  Z.abs (FileCacheStorage.max_age_days self) <= timedelta_max_days ->
  clock w (ticks w) - t > timedelta_days (FileCacheStorage.max_age_days self) ->
  let w' := fst (FileCacheStorage.retrieve self key w) in
  snd (FileCacheStorage.retrieve self key w) = Ok None /\
  dir w' = Some (delete p files) /\
  removed w' = removed w ++ [p] /\
  snd (os_path_exists p w') = Ok false /\
  forall w'', dir w'' = dir w' -> snd (FileCacheStorage.retrieve self key w'') = Ok None.
Proof.
  cbn zeta. intros Hd Hp Ht Hrange Hold.
  assert (Hrun : FileCacheStorage.retrieve self key w
                 = (after_removals (delete (FileCacheStorage._get_cache_path self key) files)
                      [FileCacheStorage._get_cache_path self key] (tick w), Ok None)).
  { assert (exists entry, json_loads text = Some entry) as [entry Hj].
    { unfold stored_at_of in Ht. destruct (json_loads text); [eauto|done]. }
    rewrite (retrieve_in_range self key w text t entry); [|by unfold lookup_file; rewrite Hd|done..].
    rewrite Hd.
    destruct (Z.gtb_spec (clock w (ticks w) - t)
                (timedelta_days (FileCacheStorage.max_age_days self))); [done|lia]. }
  rewrite Hrun. cbn [fst snd].
  split; [done|]. split; [done|]. split; [done|]. split.
  - unfold os_path_exists. cbn. rewrite lookup_delete_eq. done.
  - intros w'' Hd''. rewrite retrieve_eq. cbn zeta. unfold lookup_file.
    rewrite Hd''. cbn. by rewrite lookup_delete_eq.
Qed.

(** *** Dictionaries *)

Lemma dict_get_set_eq k v d : dict_get k (dict_set k v d) = Some v.
Proof.
  induction d as [|[k' v'] d IH]; cbn.
  - by rewrite String.eqb_refl.
  - destruct (String.eqb k k') eqn:Hk; cbn; rewrite Hk; [done|exact IH].
Qed.

Lemma dict_get_set_ne k k' v d : k' <> k -> dict_get k' (dict_set k v d) = dict_get k' d.
Proof.
  intros Hne. induction d as [|[k'' v''] d IH]; cbn.
  - destruct (String.eqb_spec k' k); [done|reflexivity].
  - destruct (String.eqb_spec k k'') as [->|Hk]; cbn.
    + destruct (String.eqb_spec k' k''); [done|reflexivity].
    + destruct (String.eqb_spec k' k''); [done|exact IH].
Qed.

(** C4, amended.  In an existing cache directory, for a [max_age_days] that
    [timedelta] accepts and a payload whose record, as [json.dump] writes
    it, [json.load] reads back, [store] followed by [retrieve], with no
    expiry between the two, returns the payload with [stored_at] set: every
    other field is that of the payload, and [stored_at] is a time
    [datetime.fromisoformat] reads. *)
Theorem store_then_retrieve self key value w files :
  let doc i := PDict (dict_set "stored_at" (PStr (isoformat (clock w i))) value) in
  dir w = Some files ->
  Z.abs (FileCacheStorage.max_age_days self) <= timedelta_max_days ->
  (forall i, json_loads (fst (json_dump_text (doc i))) = Some (doc i)) ->
  (forall i, fromisoformat (isoformat (clock w i)) = Some (clock w i)) ->
  fresh_at_next_reading self (fst (FileCacheStorage.store self key value w)) ->
  exists entry,
    snd (FileCacheStorage.retrieve self key (fst (FileCacheStorage.store self key value w)))
    = Ok (Some (PDict entry)) /\
    superset_with_stored_at value entry.
Proof.
  cbn zeta. intros Hd Hrange Hload Hiso Hlive.
  destruct (store_body_run self key value w files Hd)
    as (files1 & n & rm & gone & _ & _ & Hrun).
  cbn zeta in Hrun. rewrite store_eq, Hrun in Hlive |- *. cbn [fst] in Hlive |- *.
  unfold fresh_at_next_reading in Hlive. cbn [clock ticks mkw pred] in Hlive.
  exists (dict_set "stored_at" (PStr (isoformat (clock w n))) value). split.
  - assert (Hat : stored_at_of
                    (fst (json_dump_text
                       (PDict (dict_set "stored_at" (PStr (isoformat (clock w n))) value))))
                  = Some (clock w n)).
    { unfold stored_at_of. rewrite (Hload n).
      rewrite dict_get_set_eq. cbn. apply Hiso. }
    rewrite (retrieve_in_range self key _ _ _ _ (lookup_insert_eq _ _ _) Hat (Hload n) Hrange).
    cbn [clock ticks mkw].
    destruct (Z.gtb_spec (clock w (S n) - clock w n)
                (timedelta_days (FileCacheStorage.max_age_days self))) as [Hold|_]; [lia|done].
  - split.
    + intros k Hk. by apply dict_get_set_ne.
    + exists (clock w n). split; [apply dict_get_set_eq|apply Hiso].
Qed.

(** *** [retrieve], case by case *)

Lemma stored_at_of_dict text t :
  stored_at_of text = Some t -> exists d, json_loads text = Some (PDict d).
Proof.
  unfold stored_at_of. destruct (json_loads text) as [[| | | | |d|]|]; try done. eauto.
Qed.

Lemma retrieve_cases self key w :
  exists w1 r,
    FileCacheStorage.retrieve self key w = (w1, Ok r) /\
    retrieve_outcome self key w w1 r.
Proof.
  rewrite retrieve_eq. cbn zeta.
  destruct (lookup_file w _) as [text|] eqn:Hl.
  - destruct (stored_at_of text) as [t|] eqn:Ht.
    + destruct (stored_at_of_dict text t Ht) as [d Hd]. rewrite Hd.
      destruct (Z.gtb_spec (Z.abs (FileCacheStorage.max_age_days self)) timedelta_max_days)
        as [Hover|Hrange].
      { eexists _, _. split; [reflexivity|]. eapply retrieve_overflow; eauto. lia. }
      destruct (Z.gtb_spec (clock w (ticks w) - t)
                  (timedelta_days (FileCacheStorage.max_age_days self))) as [Hold|Hlive].
      * unfold lookup_file in Hl. destruct (dir w) as [files|] eqn:Hdir; [|done].
        eexists _, _. split; [reflexivity|].
        eapply retrieve_purged; eauto. lia.
      * eexists _, _. split; [reflexivity|]. eapply retrieve_live; eauto.
    + exists w, None. split; [by destruct (json_loads text)|].
      apply retrieve_absent. rewrite Hl. exact Ht.
  - eexists _, _. split; [reflexivity|]. apply retrieve_absent. by rewrite Hl.
Qed.

Lemma retrieve_outcome_net self key w w1 r :
  retrieve_outcome self key w w1 r ->
  requested w1 = requested w /\ transport w1 = transport w /\ clock w1 = clock w.
Proof. by destruct 1. Qed.


(** *** The retry loop *)






(** *** [_cache_track_url] *)

(** On a miss, [_cache_track_url] goes on to the directory and the loop. *)
Lemma inner_miss_gen cache track_id url meta w w1 r :
  FileCacheStorage.retrieve (TrackUrlCache.storage cache) track_id w = (w1, Ok r) ->
  retrieve_outcome (TrackUrlCache.storage cache) track_id w w1 r ->
  lookup_misses (TrackUrlCache.storage cache) track_id w ->
  TrackUrlCache._cache_track_url cache track_id url meta w
  = (os_makedirs ;;;
     TrackUrlCache.download_loop cache track_id url meta (track_path cache track_id)
       (seqZ 0 (TrackUrlCache.max_retries cache))) w1.
Proof.
  intros Hret Hout Hmiss. unfold TrackUrlCache._cache_track_url.
  rewrite bind_eq, Hret. destruct Hout as [| | |text d t Hl Hj _ _ _]; try done.
  rewrite bind_eq. cbn [py_truthy py_contains].
  unfold dict_in. rewrite (Hmiss d); [by destruct d|]. by rewrite Hret.
Qed.

Lemma uncached_misses self key w : uncached self key w -> lookup_misses self key w.
Proof.
  intros Hun d Hd.
  destruct (retrieve_cases self key w) as (w1 & r & Hret & Hout).
  rewrite Hret in Hd. cbn in Hd.
  destruct Hout as [| | |text d' t Hl Hj _ _ _]; try done.
  assert (d' = d) as -> by congruence. by apply (Hun text).
Qed.

Lemma inner_miss cache track_id url meta w w1 r :
  FileCacheStorage.retrieve (TrackUrlCache.storage cache) track_id w = (w1, Ok r) ->
  retrieve_outcome (TrackUrlCache.storage cache) track_id w w1 r ->
  uncached (TrackUrlCache.storage cache) track_id w ->
  TrackUrlCache._cache_track_url cache track_id url meta w
  = (os_makedirs ;;;
     TrackUrlCache.download_loop cache track_id url meta (track_path cache track_id)
       (seqZ 0 (TrackUrlCache.max_retries cache))) w1.
Proof.
  intros Hret Hout Hun. apply (inner_miss_gen _ _ _ _ _ _ _ Hret Hout). by apply uncached_misses.
Qed.

(** On a hit, it returns the stored [local_path]. *)
Lemma inner_hit cache track_id url meta w text d t x :
  lookup_file w (FileCacheStorage._get_cache_path (TrackUrlCache.storage cache) track_id)
    = Some text ->
  json_loads text = Some (PDict d) ->
  stored_at_of text = Some t ->
  Z.abs (FileCacheStorage.max_age_days (TrackUrlCache.storage cache)) <= timedelta_max_days ->
  clock w (ticks w) - t
    <= timedelta_days (FileCacheStorage.max_age_days (TrackUrlCache.storage cache)) ->
  dict_get "local_path" d = Some x ->
  TrackUrlCache._cache_track_url cache track_id url meta w = (tick w, Ok x).
Proof.
  intros Hl Hj Ht Hrange Hlive Hx. unfold TrackUrlCache._cache_track_url.
  rewrite bind_eq, (retrieve_in_range _ _ _ _ _ _ Hl Ht Hj Hrange).
  destruct (Z.gtb_spec (clock w (ticks w) - t)
              (timedelta_days (FileCacheStorage.max_age_days (TrackUrlCache.storage cache))));
    [lia|].
  assert (Htruthy : py_truthy (PDict d) = true) by (by destruct d).
  rewrite bind_eq, Htruthy. unfold py_contains, dict_in. rewrite Hx.
  unfold ret at 1. unfold logger_log. rewrite bind_eq. unfold ret at 1.
  change (default PNone (Some (PDict d))) with (PDict d).
  unfold py_getitem. by rewrite Hx.
Qed.

Lemma makedirs_run w :
  exists w2, os_makedirs w = (w2, Ok tt) /\
    requested w2 = requested w /\ transport w2 = transport w /\ clock w2 = clock w /\
    (forall p, lookup_file w2 p = lookup_file w p) /\
    (exists files, dir w2 = Some files).
Proof.
  unfold os_makedirs. destruct (dir w) as [files|] eqn:Hd.
  - exists w. repeat split; eauto.
  - eexists. split; [reflexivity|]. repeat split; cbn; eauto.
    intros p. unfold lookup_file. cbn. rewrite Hd. apply lookup_empty.
Qed.





(** *** The two files of a track *)

Lemma string_app_assoc (a b c : string) : (a +:+ b) +:+ c = a +:+ (b +:+ c).
Proof.
  induction a as [|x a IH]; [done|].
  change (String x ((a +:+ b) +:+ c) = String x (a +:+ (b +:+ c))). by f_equal.
Qed.

Lemma string_app_cancel_l (s a b : string) : s +:+ a = s +:+ b -> a = b.
Proof. apply (inj (String.append s)). Qed.

Lemma os_path_join_eq a b :
  os_path_join a b = if starts_with_slash b then b else join_prefix a +:+ b.
Proof.
  destruct b as [|c b].
  - unfold os_path_join, starts_with_slash, join_prefix.
    destruct a as [|x a]; [done|].
    destruct (ends_with_slash (String x a)); [done|].
    symmetry. apply string_app_assoc.
  - unfold os_path_join, starts_with_slash, join_prefix.
    destruct c as [[] [] [] [] [] [] [] []]; cbn [Ascii.eqb Bool.eqb andb];
      try reflexivity.
    all: destruct a as [|x a]; [done|].
    all: destruct (ends_with_slash (String x a)); [done|].
    all: symmetry; apply string_app_assoc.
Qed.

Lemma starts_with_slash_app h s :
  starts_with_slash (h +:+ s) = match h with "" => starts_with_slash s | _ => starts_with_slash h end.
Proof. by destruct h. Qed.

Lemma cache_and_track_paths_differ dir_name h :
  os_path_join dir_name (h +:+ ".cache") <> os_path_join dir_name (h +:+ ".track").
Proof.
  rewrite !os_path_join_eq, !starts_with_slash_app.
  assert (Hsame : match h with "" => starts_with_slash ".cache" | _ => starts_with_slash h end
                  = match h with "" => starts_with_slash ".track" | _ => starts_with_slash h end)
    by (by destruct h).
  rewrite <- Hsame.
  destruct (match h with "" => starts_with_slash ".cache" | _ => starts_with_slash h end).
  - intros Heq. apply string_app_cancel_l in Heq. discriminate Heq.
  - intros Heq. apply string_app_cancel_l, string_app_cancel_l in Heq. discriminate Heq.
Qed.

(** *** A successful fetch *)

Lemma dict_get_update_none k a b :
  dict_get k b = None -> dict_get k (dict_update a b) = dict_get k a.
Proof.
  unfold dict_update. revert a; induction b as [|[k' v'] b IH]; intros a Hb; cbn; [done|].
  cbn in Hb. destruct (String.eqb_spec k k') as [->|Hne]; [done|].
  rewrite IH by done. cbn. by apply dict_get_set_ne.
Qed.

Lemma download_attempt_ok cache track_id url meta w files st body :
  dir w = Some files ->
  transport w (length (requested w)) url = Respond st body ->
  ~ 400 <= st < 600 ->
  TrackUrlCache.download_attempt cache track_id url meta (track_path cache track_id) w
  = (fst (FileCacheStorage.store (TrackUrlCache.storage cache) track_id
            (track_metadata cache track_id body meta)
            (World (Some (<[track_path cache track_id := body]> files)) (clock w) (ticks w)
                   (transport w) (requested w ++ [url]) (removed w))),
     Ok (PStr (track_path cache track_id))).
Proof.
  intros Hd Htr Hst. unfold TrackUrlCache.download_attempt.
  rewrite bind_eq. unfold requests_get. rewrite Htr.
  rewrite bind_eq. unfold raise_for_status. cbn [status_code content].
  assert (Hok : (400 <=? st) && (st <? 600) = false).
  { destruct (Z.leb_spec 400 st); destruct (Z.ltb_spec st 600); try done. lia. }
  rewrite Hok. unfold ret at 1.
  rewrite bind_eq. unfold open_truncate. cbn [dir]. rewrite Hd.
  rewrite bind_eq. unfold file_write, set_dir. cbn [dir clock ticks transport requested removed].
  rewrite lookup_insert_eq, insert_insert_eq.
  rewrite bind_eq, store_eq. fold (track_metadata cache track_id body meta).
  change ("" +:+ body) with body. by rewrite store_eq.
Qed.

(** *** The retry loop, one attempt at a time *)

Lemma download_attempt_fails_once cache track_id url meta p w :
  request_fails w url 0 ->
  exists e, is_RequestException e = true /\
    TrackUrlCache.download_attempt cache track_id url meta p w
    = (add_requests [url] w, Raise e).
Proof.
  unfold request_fails. rewrite Nat.add_0_r. intros Hfail.
  unfold TrackUrlCache.download_attempt. rewrite bind_eq. unfold requests_get.
  destruct (transport w (length (requested w)) url) as [st body|e].
  - exists HTTPError. split; [done|].
    rewrite bind_eq. unfold raise_for_status. cbn [status_code].
    destruct (Z.leb_spec 400 st); [|lia]. destruct (Z.ltb_spec st 600); [|lia]. done.
  - exists e. done.
Qed.

Lemma download_loop_retries cache track_id url meta st body files j : forall a w,
  dir w = Some files ->
  (forall i, (i < j)%nat -> request_fails w url i) ->
  transport w (length (requested w) + j) url = Respond st body ->
  ~ 400 <= st < 600 ->
  a + Z.of_nat j < TrackUrlCache.max_retries cache ->
  TrackUrlCache.download_loop cache track_id url meta (track_path cache track_id)
    (seqZ a (TrackUrlCache.max_retries cache - a)) w
  = (fst (FileCacheStorage.store (TrackUrlCache.storage cache) track_id
            (track_metadata cache track_id body meta)
            (World (Some (<[track_path cache track_id := body]> files)) (clock w) (ticks w)
                   (transport w) (requested w ++ replicate (S j) url) (removed w))),
     Ok (PStr (track_path cache track_id))).
Proof.
  induction j as [|j IH]; intros a w Hd Hfails Hok Hst Hleft.
  - rewrite seqZ_cons by lia. cbn [TrackUrlCache.download_loop].
    rewrite bind_eq. unfold attempt. rewrite Nat.add_0_r in Hok.
    by rewrite (download_attempt_ok cache track_id url meta w files st body Hd Hok Hst).
  - rewrite seqZ_cons by lia. cbn [TrackUrlCache.download_loop].
    rewrite bind_eq. unfold attempt.
    destruct (download_attempt_fails_once cache track_id url meta (track_path cache track_id) w
                (Hfails 0%nat ltac:(lia))) as (e & He & ->).
    rewrite He. unfold logger_log at 1. rewrite bind_eq. unfold ret at 1.
    destruct (Z.eqb_spec a (TrackUrlCache.max_retries cache - 1)) as [Hlast|_]; [lia|].
    replace (Z.pred (TrackUrlCache.max_retries cache - a))
      with (TrackUrlCache.max_retries cache - Z.succ a) by lia.
    rewrite (IH (Z.succ a) (add_requests [url] w)); [| done | | | done | lia].
    + cbn [add_requests clock ticks transport requested removed].
      by rewrite <- app_assoc.
    + intros i Hi. unfold request_fails. cbn [add_requests transport requested].
      rewrite length_app. cbn [length].
      replace (length (requested w) + 1 + i)%nat with (length (requested w) + S i)%nat by lia.
      apply (Hfails (S i)). lia.
    + cbn [add_requests transport requested]. rewrite length_app. cbn [length].
      replace (length (requested w) + 1 + j)%nat with (length (requested w) + S j)%nat by lia.
      exact Hok.
Qed.

Lemma requested_after_store self key value w files :
  dir w = Some files ->
  requested (fst (FileCacheStorage.store self key value w)) = requested w.
Proof.
  intros Hd. rewrite store_eq. cbn [fst].
  destruct (store_body_run self key value w files Hd) as (files1 & n & rm & gone & _ & _ & Hrun).
  cbn zeta in Hrun. by rewrite Hrun.
Qed.

Lemma cache_track_url_joined cache track_id url meta w w1 x :
  TrackUrlCache._cache_track_url cache track_id url meta w = (w1, Ok x) ->
  x <> PNone ->
  TrackUrlCache.cache_track_url cache track_id url meta true w = (w1, Ok x).
Proof.
  intros Hrun Hne.
  assert (Hworker : TrackUrlCache.cache_retrieval cache track_id url meta w = (w1, Ok x)).
  { unfold TrackUrlCache.cache_retrieval, try_except. by rewrite Hrun. }
  unfold TrackUrlCache.cache_track_url. rewrite bind_eq, Hworker.
  unfold try_except, TrackUrlCache.queue_get. rewrite bind_eq. unfold ret at 1.
  by destruct x.
Qed.

Lemma first_fetch cache track_id url meta w st body :
  lookup_file w (FileCacheStorage._get_cache_path (TrackUrlCache.storage cache) track_id)
    = None ->
  transport w (length (requested w)) url = Respond st body ->
  ~ 400 <= st < 600 ->
  1 <= TrackUrlCache.max_retries cache ->
  TrackUrlCache._cache_track_url cache track_id url meta w
  = (fst (FileCacheStorage.store (TrackUrlCache.storage cache) track_id
            (track_metadata cache track_id body meta)
            (World (Some (<[track_path cache track_id := body]> (default ∅ (dir w))))
                   (clock w) (ticks w) (transport w) (requested w ++ [url]) (removed w))),
     Ok (PStr (track_path cache track_id))).
Proof.
  intros Hl Htr Hst Hmax.
  assert (Hret : FileCacheStorage.retrieve (TrackUrlCache.storage cache) track_id w
                 = (w, Ok None)).
  { rewrite retrieve_eq. cbn zeta. by rewrite Hl. }
  assert (Hout : retrieve_outcome (TrackUrlCache.storage cache) track_id w w None).
  { apply retrieve_absent. by rewrite Hl. }
  assert (Hun : uncached (TrackUrlCache.storage cache) track_id w).
  { intros text d Hl'. congruence. }
  rewrite (inner_miss _ _ _ _ _ _ _ Hret Hout Hun).
  rewrite bind_eq, seqZ_cons by lia. cbn [TrackUrlCache.download_loop].
  unfold os_makedirs.
  destruct (dir w) as [files|] eqn:Hd; rewrite bind_eq; unfold attempt.
  - rewrite (download_attempt_ok cache track_id url meta w files st body Hd Htr Hst). done.
  - rewrite (download_attempt_ok cache track_id url meta (set_dir (Some ∅) w) ∅ st body
               eq_refl Htr Hst). done.
Qed.

(** A fetch, after a lookup that misses, answered after [j] failed
    requests: the payload is written, then the record, stamped with the
    reading [n] of the clock, the last one made. *)
Lemma fetch_run cache track_id url meta w st body j :
  lookup_misses (TrackUrlCache.storage cache) track_id w ->
  (forall i, (i < j)%nat -> request_fails w url i) ->
  transport w (length (requested w) + j) url = Respond st body ->
  ~ 400 <= st < 600 ->
  Z.of_nat j < TrackUrlCache.max_retries cache ->
  exists files1 n rm,
    TrackUrlCache._cache_track_url cache track_id url meta w
    = (World (Some (<[FileCacheStorage._get_cache_path (TrackUrlCache.storage cache) track_id
                      := fst (json_dump_text
                                (PDict (dict_set "stored_at" (PStr (isoformat (clock w n)))
                                          (track_metadata cache track_id body meta))))]>
                      files1))
             (clock w) (S n) (transport w) (requested w ++ replicate (S j) url) rm,
       Ok (PStr (track_path cache track_id))).
Proof.
  intros Hun Hfails Hok Hst Hleft.
  destruct (retrieve_cases (TrackUrlCache.storage cache) track_id w) as (w1 & r & Hret & Hout).
  destruct (retrieve_outcome_net _ _ _ _ _ Hout) as (Hrq1 & Htr1 & Hck1).
  destruct (makedirs_run w1) as (w2 & Hmk & Hrq2 & Htr2 & Hck2 & _ & files2 & Hd2).
  rewrite (inner_miss_gen _ _ _ _ _ _ _ Hret Hout Hun), bind_eq, Hmk.
  pose proof (download_loop_retries cache track_id url meta st body files2 j 0 w2 Hd2) as Hloop.
  rewrite Z.sub_0_r in Hloop. rewrite Hloop; [| | |done|lia].
  - set (w3 := World (Some (<[track_path cache track_id := body]> files2))
                     (clock w2) (ticks w2) (transport w2)
                     (requested w2 ++ replicate (S j) url) (removed w2)).
    destruct (store_body_run (TrackUrlCache.storage cache) track_id
                (track_metadata cache track_id body meta) w3 _ eq_refl)
      as (files1 & n & rm & gone & _ & _ & Hstore).
    cbn zeta in Hstore. rewrite store_eq, Hstore. cbn [fst].
    exists files1, n, rm. unfold mkw.
    cbn [clock transport requested w3]. by rewrite Hck2, Hck1, Htr2, Htr1, Hrq2, Hrq1.
  - intros i Hi. unfold request_fails. rewrite Htr2, Htr1, Hrq2, Hrq1. by apply Hfails.
  - by rewrite Htr2, Htr1, Hrq2, Hrq1.
Qed.

Lemma second_call_hit cache track_id url meta w st body j :
  let doc i := PDict (dict_set "stored_at" (PStr (isoformat (clock w i)))
                               (track_metadata cache track_id body meta)) in
  lookup_misses (TrackUrlCache.storage cache) track_id w ->
  Z.abs (FileCacheStorage.max_age_days (TrackUrlCache.storage cache)) <= timedelta_max_days ->
  (forall i, (i < j)%nat -> request_fails w url i) ->
  transport w (length (requested w) + j) url = Respond st body ->
  ~ 400 <= st < 600 ->
  Z.of_nat j < TrackUrlCache.max_retries cache ->
  (forall d, meta = Some d -> dict_get "local_path" d = None) ->
  (forall i, json_loads (fst (json_dump_text (doc i))) = Some (doc i)) ->
  (forall i, fromisoformat (isoformat (clock w i)) = Some (clock w i)) ->
  fresh_at_next_reading (TrackUrlCache.storage cache)
    (fst (TrackUrlCache.cache_track_url cache track_id url meta true w)) ->
  exists w1 w2,
    TrackUrlCache.cache_track_url cache track_id url meta true w
    = (w1, Ok (PStr (track_path cache track_id))) /\
    requested w1 = requested w ++ replicate (S j) url /\
    TrackUrlCache.cache_track_url cache track_id url meta true w1
    = (w2, Ok (PStr (track_path cache track_id))) /\
    requested w2 = requested w1.
Proof.
  cbn zeta. intros Hun Hrange Hfails Hok Hst Hleft Hextra Hload Hiso Hlive.
  destruct (fetch_run cache track_id url meta w st body j Hun Hfails Hok Hst Hleft)
    as (files1 & n & rm & Hfetch).
  set (text := fst (json_dump_text
                 (PDict (dict_set "stored_at" (PStr (isoformat (clock w n)))
                                  (track_metadata cache track_id body meta))))) in *.
  set (w1 := World (Some (<[FileCacheStorage._get_cache_path (TrackUrlCache.storage cache)
                              track_id := text]> files1))
                   (clock w) (S n) (transport w) (requested w ++ replicate (S j) url) rm) in *.
  assert (Hfirst : TrackUrlCache.cache_track_url cache track_id url meta true w
                   = (w1, Ok (PStr (track_path cache track_id)))).
  { by apply cache_track_url_joined. }
  rewrite Hfirst in Hlive. unfold fresh_at_next_reading in Hlive.
  cbn [fst clock ticks w1 pred] in Hlive.
  assert (Hlocal : dict_get "local_path"
                     (dict_set "stored_at" (PStr (isoformat (clock w n)))
                               (track_metadata cache track_id body meta))
                   = Some (PStr (track_path cache track_id))).
  { rewrite dict_get_set_ne by done. unfold track_metadata.
    rewrite dict_get_update_none; [done|].
    destruct meta as [[|kv d]|]; try done. exact (Hextra (kv :: d) eq_refl). }
  assert (Hsecond : TrackUrlCache._cache_track_url cache track_id url meta w1
                    = (tick w1, Ok (PStr (track_path cache track_id)))).
  { eapply (inner_hit cache track_id url meta w1 text _ (clock w n)).
    - unfold lookup_file, w1. cbn. apply lookup_insert_eq.
    - apply Hload.
    - unfold stored_at_of, text. rewrite Hload, dict_get_set_eq. cbn. apply Hiso.
    - exact Hrange.
    - exact Hlive.
    - exact Hlocal. }
  exists w1, (tick w1).
  split; [exact Hfirst|]. split; [done|].
  split; [by apply cache_track_url_joined|done].
Qed.

(** C8, amended.  For a [max_age_days] that [timedelta] accepts, a call of
    [cache_track_url] for a key with a live record that has a [local_path],
    when the retrieval thread is done within the wait, returns that path and
    does not call [requests.get].  When a call has fetched a key, after a
    lookup that missed (no record, an unreadable or an expired one, or one
    without [local_path]) and at the first request or after failed ones, a
    second call, with no expiry between the two, returns the path the first
    call returned, with no further call of [requests.get], provided the
    metadata record was written: [json.load] reads it back, and the extra
    metadata does not itself set [local_path]. *)
Theorem cached_track_short_circuits :
  (forall cache track_id url meta w text d t path,
     lookup_file w (FileCacheStorage._get_cache_path (TrackUrlCache.storage cache) track_id)
       = Some text ->
     json_loads text = Some (PDict d) ->
     stored_at_of text = Some t ->
     Z.abs (FileCacheStorage.max_age_days (TrackUrlCache.storage cache))
       <= timedelta_max_days ->
     clock w (ticks w) - t
       <= timedelta_days (FileCacheStorage.max_age_days (TrackUrlCache.storage cache)) ->
     dict_get "local_path" d = Some (PStr path) ->
     exists w',
       TrackUrlCache.cache_track_url cache track_id url meta true w = (w', Ok (PStr path)) /\
       requested w' = requested w) /\
  (forall cache track_id url meta w st body j,
     let doc i := PDict (dict_set "stored_at" (PStr (isoformat (clock w i)))
                                  (track_metadata cache track_id body meta)) in
     lookup_misses (TrackUrlCache.storage cache) track_id w ->
     Z.abs (FileCacheStorage.max_age_days (TrackUrlCache.storage cache))
       <= timedelta_max_days ->
     (forall i, (i < j)%nat -> request_fails w url i) ->
     transport w (length (requested w) + j) url = Respond st body ->
     ~ 400 <= st < 600 ->
     Z.of_nat j < TrackUrlCache.max_retries cache ->
     (forall d, meta = Some d -> dict_get "local_path" d = None) ->
     (forall i, json_loads (fst (json_dump_text (doc i))) = Some (doc i)) ->
     (forall i, fromisoformat (isoformat (clock w i)) = Some (clock w i)) ->
     fresh_at_next_reading (TrackUrlCache.storage cache)
       (fst (TrackUrlCache.cache_track_url cache track_id url meta true w)) ->
     exists w1 w2,
       TrackUrlCache.cache_track_url cache track_id url meta true w
       = (w1, Ok (PStr (track_path cache track_id))) /\
       requested w1 = requested w ++ replicate (S j) url /\
       TrackUrlCache.cache_track_url cache track_id url meta true w1
       = (w2, Ok (PStr (track_path cache track_id))) /\
       requested w2 = requested w1).
Proof.
  split.
  - intros cache track_id url meta w text d t path Hl Hj Ht Hrange Hlive Hx.
    exists (tick w). split; [|done].
    apply cache_track_url_joined; [|done].
    exact (inner_hit cache track_id url meta w text d t (PStr path) Hl Hj Ht Hrange Hlive Hx).
  - intros. by apply (second_call_hit cache track_id url meta w st body j).
Qed.

(** C3, amended.  The total that [store] and the cleanup pass compare with
    [max_total_size_bytes] is the sum of the sizes of all the files of the
    cache directory, and a fetch writes the payload into that directory.
    After a first fetch that fits the budget the directory holds the payload
    file, and the total has grown by the length of the payload and by that
    of the record: a payload file adds its length in bytes, as a metadata
    record does. *)
Theorem total_size_counts_every_file cache track_id url meta w files st body :
  let self := TrackUrlCache.storage cache in
  let p := track_path cache track_id in
  let metadata := track_metadata cache track_id body meta in
  let text :=
    fst (json_dump_text
           (PDict (dict_set "stored_at" (PStr (isoformat (clock w (ticks w)))) metadata))) in
  dir w = Some files ->
  files !! FileCacheStorage._get_cache_path self track_id = None ->
  files !! p = None ->
  transport w (length (requested w)) url = Respond st body ->
  ~ 400 <= st < 600 ->
  1 <= TrackUrlCache.max_retries cache ->
  dir_size (<[p := body]> files) + str_encoded_len (PDict metadata)
    <= FileCacheStorage.max_total_size_bytes self ->
  FileCacheStorage._get_total_cache_size self w = (w, Ok (dir_size files)) /\
  exists w' files',
    TrackUrlCache._cache_track_url cache track_id url meta w = (w', Ok (PStr p)) /\
    dir w' = Some files' /\
    files' !! p = Some body /\
    FileCacheStorage._get_total_cache_size self w' = (w', Ok (dir_size files')) /\
    dir_size files' = dir_size files + st_size body + st_size text.
Proof.
  cbn zeta. intros Hd Hnone Hfresh Htr Hst Hmax Hfit.
  split; [by rewrite total_size_eq, Hd|].
  assert (Hl : lookup_file w
                 (FileCacheStorage._get_cache_path (TrackUrlCache.storage cache) track_id)
               = None).
  { unfold lookup_file. by rewrite Hd. }
  rewrite (first_fetch cache track_id url meta w st body Hl Htr Hst Hmax), Hd.
  cbn [default from_option id].
  set (w3 := World (Some (<[track_path cache track_id := body]> files))
                   (clock w) (ticks w) (transport w) (requested w ++ [url]) (removed w)).
  destruct (store_body_run (TrackUrlCache.storage cache) track_id
              (track_metadata cache track_id body meta) w3 _ eq_refl)
    as (files1 & n & rm & gone & _ & Hsame & Hstore).
  destruct (Hsame Hfit) as (-> & -> & ->).
  cbn zeta in Hstore. rewrite store_eq, Hstore. cbn [fst].
  eexists _, _. split; [reflexivity|]. split; [reflexivity|].
  assert (Hne : FileCacheStorage._get_cache_path (TrackUrlCache.storage cache) track_id
                <> track_path cache track_id) by apply cache_and_track_paths_differ.
  split; [by rewrite lookup_insert_ne, lookup_insert_eq|].
  split; [by rewrite total_size_eq|].
  cbn [clock ticks w3].
  rewrite dir_size_insert by (by rewrite lookup_insert_ne).
  rewrite dir_size_insert by done. lia.
Qed.

(** C10.  [TrackUrlCache()] without a storage adapter raises [NameError]:
    the default branch reads [max_cache_size_bytes], which is neither a
    parameter of [__init__] nor a name of the module.  With an adapter the
    construction succeeds and keeps the adapter. *)
Theorem init_without_adapter_raises_NameError download_timeout max_retries w :
  ("max_cache_size_bytes" ∉ TrackUrlCache.module_globals) /\
  TrackUrlCache.__init__ None download_timeout max_retries w
  = (w, Raise (NameError "max_cache_size_bytes")) /\
  forall adapter,
    TrackUrlCache.__init__ (Some adapter) download_timeout max_retries w
    = (w, Ok {| TrackUrlCache.storage := adapter;
                TrackUrlCache.download_timeout := download_timeout;
                TrackUrlCache.max_retries := max_retries |}).
Proof.
  split; [|split].
  - intros Hin. by apply (bool_decide_pack _) in Hin.
  - reflexivity.
  - intros adapter. reflexivity.
Qed.

(** ** Further properties of [FileCacheStorage] *)

Lemma lookup_file_mkw files n rm w p : lookup_file (mkw files n rm w) p = files !! p.
Proof. reflexivity. Qed.

Lemma delete_eq self key w :
  FileCacheStorage.delete self key w =
    let p := FileCacheStorage._get_cache_path self key in
    match dir w with
    | Some files =>
        match files !! p with
        | Some _ => (after_removals (base.delete p files) [p] w, Ok tt)
        | None => (w, Ok tt)
        end
    | None => (w, Ok tt)
    end.
Proof.
  unfold FileCacheStorage.delete, try_except, bind, os_path_exists, os_remove, ret,
    after_removals.
  cbn zeta. destruct (dir w) as [files|] eqn:Hd; [|done].
  destruct (files !! _) as [b|] eqn:Hp; cbn; [|done].
  by rewrite Hd, Hp.
Qed.

Lemma delete_removes_only_the_entry_aux self key w :
  let p := FileCacheStorage._get_cache_path self key in
  let w' := fst (FileCacheStorage.delete self key w) in
  snd (FileCacheStorage.delete self key w) = Ok tt /\
  lookup_file w' p = None /\
  (forall q, q <> p -> lookup_file w' q = lookup_file w q) /\
  (lookup_file w p = None -> w' = w) /\
  snd (FileCacheStorage.retrieve self key w') = Ok None.
Proof.
  cbn zeta. rewrite delete_eq. cbn zeta. unfold lookup_file.
  destruct (dir w) as [files|] eqn:Hd.
  - destruct (files !! _) as [b|] eqn:Hp; cbn [fst snd].
    + split; [done|]. cbn. rewrite lookup_delete_eq. split; [done|].
      split; [intros q Hq; by rewrite lookup_delete_ne|]. split; [done|].
      rewrite retrieve_eq. cbn zeta. unfold lookup_file. cbn. by rewrite lookup_delete_eq.
    + rewrite Hd, Hp. split; [done|]. split; [done|]. split; [done|]. split; [done|].
      rewrite retrieve_eq. cbn zeta. unfold lookup_file. by rewrite Hd, Hp.
  - cbn [fst snd]. rewrite Hd. split; [done|]. split; [done|]. split; [done|]. split; [done|].
    rewrite retrieve_eq. cbn zeta. unfold lookup_file. by rewrite Hd.
Qed.

(** [delete] never raises.  After it the file of the key is gone, every
    other file is what it was, and [retrieve] returns [None]; deleting a key
    that has no file changes nothing. *)
Theorem delete_removes_only_the_entry self key w :
  let p := FileCacheStorage._get_cache_path self key in
  let w' := fst (FileCacheStorage.delete self key w) in
  snd (FileCacheStorage.delete self key w) = Ok tt /\
  lookup_file w' p = None /\
  (forall q, q <> p -> lookup_file w' q = lookup_file w q) /\
  (lookup_file w p = None -> w' = w) /\
  snd (FileCacheStorage.retrieve self key w') = Ok None.
Proof. apply delete_removes_only_the_entry_aux. Qed.

(** [clear] never raises.  On an existing directory it leaves the directory
    in place and empty, so that [retrieve] returns [None] for every key.  On
    a missing directory [shutil.rmtree] raises, the [os.makedirs] after it is
    skipped, and the directory is still missing. *)
Theorem clear_leaves_an_empty_directory self w :
  let w' := fst (FileCacheStorage.clear self w) in
  snd (FileCacheStorage.clear self w) = Ok tt /\
  dir w' = match dir w with Some _ => Some ∅ | None => None end /\
  forall key w'', dir w'' = dir w' ->
    snd (FileCacheStorage.retrieve self key w'') = Ok None.
Proof.
  cbn zeta. unfold FileCacheStorage.clear, try_except, bind, shutil_rmtree, os_makedirs,
    logger_log, ret.
  destruct (dir w) as [files|] eqn:Hd; cbn.
  - split; [done|]. split; [done|].
    intros key w'' Hd''. rewrite retrieve_eq. cbn zeta. unfold lookup_file.
    rewrite Hd''. by rewrite lookup_empty.
  - rewrite Hd. split; [done|]. split; [done|].
    intros key w'' Hd''. rewrite retrieve_eq. cbn zeta. unfold lookup_file.
    by rewrite Hd''.
Qed.

(** [retrieve] never raises.  When the key has no file, or a file without a
    readable [stored_at] (not json, not a dict, no or a malformed
    [stored_at]), it returns [None] and leaves the world as it is: the
    unreadable file is not removed. *)
Theorem retrieve_unreadable_is_a_miss self key w :
  (exists r, snd (FileCacheStorage.retrieve self key w) = Ok r) /\
  ((lookup_file w (FileCacheStorage._get_cache_path self key) ≫= stored_at_of) = None ->
   FileCacheStorage.retrieve self key w = (w, Ok None)).
Proof.
  destruct (retrieve_cases self key w) as (w1 & r & Hret & Hout).
  split; [exists r; by rewrite Hret|].
  intros Hbad. rewrite retrieve_eq. cbn zeta.
  destruct (lookup_file w _) as [text|]; [|done].
  cbn in Hbad. rewrite Hbad. by destruct (json_loads text).
Qed.

(** For a [max_age_days] that [timedelta] accepts, [retrieve] returns a
    record that is at most [max_age_days] old, exactly [max_age_days]
    included, as [json.load] reads it; it only reads the clock, and the file
    stays. *)
Theorem retrieve_live_returns_the_record self key w text entry t :
  lookup_file w (FileCacheStorage._get_cache_path self key) = Some text ->
  json_loads text = Some entry ->
  stored_at_of text = Some t ->
  Z.abs (FileCacheStorage.max_age_days self) <= timedelta_max_days ->
  clock w (ticks w) - t <= timedelta_days (FileCacheStorage.max_age_days self) ->
  FileCacheStorage.retrieve self key w = (tick w, Ok (Some entry)) /\
  lookup_file (tick w) (FileCacheStorage._get_cache_path self key) = Some text.
Proof.
  intros Hl Hj Ht Hrange Hlive. split; [|exact Hl].
  rewrite (retrieve_in_range self key w text t entry Hl Ht Hj Hrange).
  destruct (Z.gtb_spec (clock w (ticks w) - t)
              (timedelta_days (FileCacheStorage.max_age_days self))); [lia|done].
Qed.

(** A [max_age_days] that [timedelta] refuses disables the cache: the
    [OverflowError] is raised inside the [try] block of [retrieve], after
    the record has been read, so that [retrieve] returns [None] for every
    key, whatever the age of its record, and removes nothing. *)
Theorem retrieve_beyond_timedelta_always_misses self key w :
  Z.abs (FileCacheStorage.max_age_days self) > timedelta_max_days ->
  let w' := fst (FileCacheStorage.retrieve self key w) in
  snd (FileCacheStorage.retrieve self key w) = Ok None /\
  dir w' = dir w /\
  removed w' = removed w.
Proof.
  intros Hover. cbn zeta. rewrite retrieve_eq. cbn zeta.
  destruct (lookup_file w _) as [text|]; [|done].
  destruct (stored_at_of text) as [t|]; [|done].
  destruct (json_loads text) as [entry|]; [|done].
  destruct (Z.gtb_spec (Z.abs (FileCacheStorage.max_age_days self)) timedelta_max_days);
    [done|lia].
Qed.

(** [store] into a missing directory writes nothing and does not create the
    directory: [os.scandir] raises, and [store] swallows the exception. *)
Theorem store_without_directory_is_dropped self key value w :
  dir w = None ->
  FileCacheStorage.store self key value w = (w, Ok tt).
Proof. intros Hd. by rewrite store_eq, store_body_no_dir. Qed.

(** A [store] that fits the budget and that [json.dump] can write replaces
    the file of the key by the record of [value] with [stored_at] set to the
    current time.  The record does not depend on what the file held before;
    no other file is touched and nothing is removed. *)
Theorem store_within_budget_replaces_the_record self key value w files :
  let doc := PDict (dict_set "stored_at" (PStr (isoformat (clock w (ticks w)))) value) in
  dir w = Some files ->
  dir_size files + str_encoded_len (PDict value)
    <= FileCacheStorage.max_total_size_bytes self ->
  snd (json_dump_text doc) = None ->
  FileCacheStorage.store self key value w
  = (mkw (<[FileCacheStorage._get_cache_path self key := fst (json_dump_text doc)]> files)
         (S (ticks w)) (removed w) w, Ok tt).
Proof.
  cbn zeta. intros Hd Hfit Hdump.
  destruct (store_body_run self key value w files Hd)
    as (files1 & n & rm & gone & _ & Hsame & Hrun).
  destruct (Hsame Hfit) as (-> & -> & ->).
  cbn zeta in Hrun. by rewrite store_eq, Hrun.
Qed.

(** *** What a cleanup pass leaves behind *)

Lemma Forall2_elem_of_r {A B} (P : A -> B -> Prop) (l : list A) (k : list B) y :
  Forall2 P l k -> y ∈ k -> exists x, x ∈ l /\ P x y.
Proof.
  induction 1 as [|a b l k Hab _ IH]; intros Hy; [by apply elem_of_nil in Hy|].
  apply elem_of_cons in Hy as [->|Hy].
  - exists a. split; [apply list_elem_of_here|done].
  - destruct (IH Hy) as (x & Hx & HP). exists x. split; [by apply list_elem_of_further|done].
Qed.

Lemma classified_origin self w lo hi files cfs f :
  dir w = Some files ->
  Forall2 (classified self w lo hi) (dir_entries files) cfs ->
  f ∈ cfs ->
  exists bytes,
    files !! FileCacheStorage.path f = Some bytes /\
    match stored_at_of bytes with
    | Some t =>
        if Z.abs (FileCacheStorage.max_age_days self) >? timedelta_max_days
        then FileCacheStorage.is_expired f = true
        else exists k, (lo <= k < hi)%nat /\
               FileCacheStorage.is_expired f =
               (clock w k - t >? timedelta_days (FileCacheStorage.max_age_days self))
    | None => FileCacheStorage.is_expired f = true
    end.
Proof.
  intros Hd Hcl Hf.
  destruct (Forall2_elem_of_r _ _ _ f Hcl Hf) as (e & He & Hpath & _ & Hcase).
  unfold dir_entries in He. apply list_elem_of_fmap in He as ([p b] & -> & Hpb).
  apply elem_of_map_to_list in Hpb. cbn in Hpath, Hcase.
  unfold lookup_file in Hcase. rewrite Hd, Hpb in Hcase. cbn in Hcase.
  exists b. rewrite Hpath. split; [done|].
  destruct (stored_at_of b) as [t|]; [|by rewrite Hcase].
  destruct (Z.abs _ >? _); [by rewrite Hcase|].
  destruct Hcase as (k & Hk & ->). by exists k.
Qed.

Lemma remove_all_subseteq ps files q b :
  remove_all ps files !! q = Some b -> files !! q = Some b.
Proof. rewrite lookup_remove_all. by destruct (decide (q ∈ ps)). Qed.

Lemma cleanup_post self w files :
  dir w = Some files ->
  0 <= FileCacheStorage.max_total_size_bytes self ->
  exists w' files',
    FileCacheStorage._cleanup_oldest_files self w = (w', Ok tt) /\
    dir w' = Some files' /\
    dir_size files' <= FileCacheStorage.max_total_size_bytes self /\
    forall q bytes, files' !! q = Some bytes ->
      files !! q = Some bytes /\ is_Some (stored_at_of bytes).
Proof.
  intros Hd Hmax.
  destruct (cleanup_run self w files Hd)
    as (n & cfs & k & (Hcl & _ & _) & Hk & Hrun & Hbefore & Hstop).
  cbn zeta in *.
  set (expired := FileCacheStorage.sort_by_stored_at
                    (filter (fun f => FileCacheStorage.is_expired f = true) cfs)) in *.
  set (live := FileCacheStorage.sort_by_stored_at
                 (filter (fun f => FileCacheStorage.is_expired f = false) cfs)) in *.
  set (gone := map FileCacheStorage.path expired
               ++ map FileCacheStorage.path (take k live)) in *.
  eexists _, (remove_all gone files). split; [exact Hrun|]. split; [done|].
  assert (Hexpired_gone : forall q bytes,
    files !! q = Some bytes -> stored_at_of bytes = None -> q ∈ gone).
  { intros q bytes Hq Hbad.
    destruct (classified_lookup self w _ _ files cfs q bytes Hcl Hq)
      as (f & Hf & Hpath & _ & Hcase).
    cbn in Hpath, Hcase. unfold lookup_file in Hcase. rewrite Hd, Hq in Hcase.
    cbn in Hcase. rewrite Hbad in Hcase.
    assert (Hexp : FileCacheStorage.is_expired f = true) by (by rewrite Hcase).
    apply elem_of_app. left. apply list_elem_of_fmap. exists f. split; [done|].
    unfold expired. rewrite sort_by_stored_at_perm. by apply list_elem_of_filter. }
  split.
  - destruct Hstop as [Hall|Hfit]; [|exact Hfit].
    assert (remove_all gone files = ∅) as ->; [|by rewrite dir_size_empty].
    apply map_eq. intros q. rewrite lookup_remove_all, lookup_empty.
    destruct (decide (q ∈ gone)) as [|Hnot]; [done|].
    destruct (files !! q) as [bytes|] eqn:Hq; [|done]. exfalso. apply Hnot.
    destruct (classified_lookup self w _ _ files cfs q bytes Hcl Hq) as (f & Hf & Hpath & _).
    cbn in Hpath. unfold gone. rewrite Hall, firstn_all. apply elem_of_app.
    destruct (FileCacheStorage.is_expired f) eqn:Hexp.
    + left. apply list_elem_of_fmap. exists f. split; [done|].
      unfold expired. rewrite sort_by_stored_at_perm. by apply list_elem_of_filter.
    + right. apply list_elem_of_fmap. exists f. split; [done|].
      unfold live. rewrite sort_by_stored_at_perm. by apply list_elem_of_filter.
  - intros q bytes Hq. split; [by eapply remove_all_subseteq|].
    destruct (stored_at_of bytes) as [t|] eqn:Ht; [eauto|]. exfalso.
    rewrite lookup_remove_all in Hq.
    destruct (decide (q ∈ gone)) as [|Hnot]; [done|].
    apply Hnot. by eapply Hexpired_gone.
Qed.

(** A cleanup pass on an existing directory, under a budget that is not
    negative, leaves the directory within [max_total_size_bytes].  What is
    left are files of the directory, unchanged, and each of them is a
    readable record. *)
Theorem cleanup_leaves_directory_within_budget self w files :
  dir w = Some files ->
  0 <= FileCacheStorage.max_total_size_bytes self ->
  exists w' files',
    FileCacheStorage._cleanup_oldest_files self w = (w', Ok tt) /\
    dir w' = Some files' /\
    dir_size files' <= FileCacheStorage.max_total_size_bytes self /\
    forall q bytes, files' !! q = Some bytes ->
      files !! q = Some bytes /\ is_Some (stored_at_of bytes).
Proof. apply cleanup_post. Qed.

Lemma filter_none {A} (P : A -> Prop) `{forall x, Decision (P x)} (l : list A) :
  (forall x, x ∈ l -> ~ P x) -> filter P l = [].
Proof.
  induction l as [|x l IH]; intros Hnot; [done|].
  rewrite filter_cons. destruct (decide (P x)) as [HP|_].
  - exfalso. apply (Hnot x); [apply list_elem_of_here|done].
  - apply IH. intros y Hy. apply Hnot. by apply list_elem_of_further.
Qed.

(** A cleanup pass over a directory within its budget, for a
    [max_age_days] that [timedelta] accepts, in which every file is a
    readable record that does not expire while the pass runs (it reads the
    clock at most once for each file), removes nothing: it only reads the
    clock. *)
Theorem cleanup_of_live_directory_removes_nothing self w files :
  dir w = Some files ->
  Z.abs (FileCacheStorage.max_age_days self) <= timedelta_max_days ->
  (forall q bytes, files !! q = Some bytes ->
     exists t, stored_at_of bytes = Some t /\
       forall i, (ticks w <= i < ticks w + size files)%nat ->
         clock w i - t <= timedelta_days (FileCacheStorage.max_age_days self)) ->
  dir_size files <= FileCacheStorage.max_total_size_bytes self ->
  exists n,
    (ticks w <= n <= ticks w + size files)%nat /\
    FileCacheStorage._cleanup_oldest_files self w = (mkw files n (removed w) w, Ok tt).
Proof.
  intros Hd Hrange Hlive Hfit.
  destruct (cleanup_run self w files Hd)
    as (n & cfs & k & (Hcl & Hn & _) & Hk & Hrun & Hbefore & Hstop).
  cbn zeta in *.
  assert (Hlen : length (dir_entries files) = size files).
  { unfold dir_entries. by rewrite length_map, length_map_to_list. }
  rewrite Hlen in Hn.
  assert (Hnone : filter (fun f => FileCacheStorage.is_expired f = true) cfs = []).
  { apply filter_none. intros f Hf Hexp.
    destruct (classified_origin self w _ _ files cfs f Hd Hcl Hf) as (bytes & Hq & Hcase).
    destruct (Hlive _ _ Hq) as (t & Ht & Hnever). rewrite Ht in Hcase.
    destruct (Z.gtb_spec (Z.abs (FileCacheStorage.max_age_days self)) timedelta_max_days);
      [lia|].
    destruct Hcase as (i & Hi & Hflag). rewrite Hexp in Hflag. symmetry in Hflag.
    apply Z.gtb_lt in Hflag. specialize (Hnever i ltac:(lia)). lia. }
  rewrite Hnone in *. cbn [FileCacheStorage.sort_by_stored_at map app] in *.
  assert (k = 0%nat) as ->.
  { destruct k as [|k]; [done|]. exfalso.
    pose proof (Hbefore 0%nat ltac:(lia)) as Hover. rewrite take_0 in Hover.
    cbn in Hover. lia. }
  rewrite take_0 in Hrun. cbn in Hrun. rewrite app_nil_r in Hrun.
  by exists n.
Qed.

(** With a [max_age_days] that [timedelta] refuses, a cleanup pass empties
    the cache directory: the [OverflowError] is raised inside the [try]
    block of the scan, so that every file is recorded as a corrupt one and
    removed with the expired files, whatever its age and whatever the
    budget. *)
Theorem cleanup_beyond_timedelta_removes_every_file self w files :
  dir w = Some files ->
  Z.abs (FileCacheStorage.max_age_days self) > timedelta_max_days ->
  exists w',
    FileCacheStorage._cleanup_oldest_files self w = (w', Ok tt) /\
    dir w' = Some ∅ /\
    forall q, q ∈ removed w' <-> q ∈ removed w \/ is_Some (files !! q).
Proof.
  intros Hd Hover.
  destruct (cleanup_run self w files Hd)
    as (n & cfs & k & (Hcl & _ & _) & Hk & Hrun & Hbefore & Hstop).
  cbn zeta in *.
  set (expired := FileCacheStorage.sort_by_stored_at
                    (filter (fun f => FileCacheStorage.is_expired f = true) cfs)) in *.
  set (live := FileCacheStorage.sort_by_stored_at
                 (filter (fun f => FileCacheStorage.is_expired f = false) cfs)) in *.
  assert (Hall : forall f, f ∈ cfs -> FileCacheStorage.is_expired f = true).
  { intros f Hf.
    destruct (classified_origin self w _ _ files cfs f Hd Hcl Hf) as (bytes & _ & Hcase).
    destruct (stored_at_of bytes); [|done].
    by destruct (Z.gtb_spec (Z.abs (FileCacheStorage.max_age_days self)) timedelta_max_days);
      [|lia]. }
  assert (Hlive : live = []).
  { unfold live. rewrite filter_none; [done|].
    intros f Hf Hfalse. rewrite (Hall f Hf) in Hfalse. done. }
  rewrite Hlive in Hrun. rewrite take_nil in Hrun. cbn [map] in Hrun.
  rewrite app_nil_r in Hrun.
  assert (Hpaths : forall q, q ∈ map FileCacheStorage.path expired <-> is_Some (files !! q)).
  { intros q. unfold expired. rewrite sort_by_stored_at_perm. split.
    - intros Hq. apply list_elem_of_fmap in Hq as (f & -> & Hf).
      apply list_elem_of_filter in Hf as [_ Hf].
      destruct (classified_origin self w _ _ files cfs f Hd Hcl Hf) as (bytes & Hb & _).
      by exists bytes.
    - intros [bytes Hq].
      destruct (classified_lookup self w _ _ files cfs q bytes Hcl Hq) as (f & Hf & Hpath & _).
      cbn in Hpath. apply list_elem_of_fmap. exists f. split; [done|].
      apply list_elem_of_filter. split; [by apply Hall|done]. }
  eexists. split; [exact Hrun|]. split.
  - cbn. f_equal. apply map_eq. intros q. rewrite lookup_remove_all, lookup_empty.
    destruct (decide (q ∈ map FileCacheStorage.path expired)) as [|Hnot]; [done|].
    destruct (files !! q) as [bytes|] eqn:Hq; [|done].
    exfalso. apply Hnot, Hpaths. by exists bytes.
  - intros q. cbn. rewrite elem_of_app, Hpaths. done.
Qed.

(** *** The size of the directory after [store] *)

Lemma dir_size_insert_le files p bytes :
  dir_size (<[p := bytes]> files) <= dir_size files + st_size bytes.
Proof.
  destruct (files !! p) as [old|] eqn:Hp.
  - rewrite <- insert_delete_eq, dir_size_insert by apply lookup_delete_eq.
    rewrite (dir_size_delete files p old Hp). pose proof (st_size_nonneg old). lia.
  - rewrite dir_size_insert by done. lia.
Qed.

Lemma store_body_from_precheck self key value w files files1 n rm :
  dir w = Some files ->
  (if dir_size files + str_encoded_len (PDict value)
        >? FileCacheStorage.max_total_size_bytes self
   then FileCacheStorage._cleanup_oldest_files self else ret tt) w
  = (mkw files1 n rm w, Ok tt) ->
  fst (FileCacheStorage.store_body self key value w)
  = mkw (<[FileCacheStorage._get_cache_path self key :=
             fst (json_dump_text
                    (PDict (dict_set "stored_at" (PStr (isoformat (clock w n))) value)))]>
           files1) (S n) rm w.
Proof.
  intros Hd Hpre. unfold FileCacheStorage.store_body.
  rewrite bind_eq, total_size_eq, Hd. rewrite bind_eq, Hpre.
  unfold bind, datetime_now, open_truncate, json_dump, file_write, ret, raise. cbn.
  destruct (json_dump_text _) as [text [e|]]; unfold bind, set_dir; cbn.
  all: rewrite lookup_insert_eq; cbn; rewrite insert_insert_eq; done.
Qed.

(** The budget is a soft bound: after [store] into an existing directory
    (with a budget and a [len(str(value))] that are not negative) the
    directory holds the file of the key, and its size exceeds
    [max_total_size_bytes] by at most the size of that file. *)
Theorem store_exceeds_budget_by_one_record_at_most self key value w files :
  dir w = Some files ->
  0 <= FileCacheStorage.max_total_size_bytes self ->
  0 <= str_encoded_len (PDict value) ->
  exists files' text,
    dir (fst (FileCacheStorage.store self key value w)) = Some files' /\
    files' !! FileCacheStorage._get_cache_path self key = Some text /\
    dir_size files' <= FileCacheStorage.max_total_size_bytes self + st_size text.
Proof.
  intros Hd Hmax Hlen. rewrite store_eq. cbn [fst].
  assert (Hpre : exists files1 n rm,
    (if dir_size files + str_encoded_len (PDict value)
          >? FileCacheStorage.max_total_size_bytes self
     then FileCacheStorage._cleanup_oldest_files self else ret tt) w
    = (mkw files1 n rm w, Ok tt) /\
    dir_size files1 <= FileCacheStorage.max_total_size_bytes self).
  { destruct (Z.gtb_spec (dir_size files + str_encoded_len (PDict value))
                (FileCacheStorage.max_total_size_bytes self)) as [Hover|Hfit].
    - destruct (cleanup_run self w files Hd) as (n & cfs & k & _ & _ & Hrun & _).
      destruct (cleanup_post self w files Hd Hmax) as (w' & files' & Hrun' & Hd' & Hfit & _).
      cbn zeta in Hrun. rewrite Hrun in Hrun'. injection Hrun' as <-.
      cbn in Hd'. injection Hd' as Hd'. eexists _, n, _. split; [exact Hrun|].
      by rewrite Hd'.
    - exists files, (ticks w), (removed w). unfold ret. rewrite mkw_self by done.
      split; [done|lia]. }
  destruct Hpre as (files1 & n & rm & Hpre & Hfit).
  rewrite (store_body_from_precheck self key value w files files1 n rm Hd Hpre).
  eexists _, _. split; [reflexivity|]. split; [apply lookup_insert_eq|].
  etransitivity; [apply dir_size_insert_le|]. lia.
Qed.

(** ** Further properties of [TrackUrlCache] *)

Lemma background_eq cache track_id url meta w :
  TrackUrlCache._background_cache_retrieval cache track_id url meta w
  = (fst (TrackUrlCache._cache_track_url cache track_id url meta w), Ok tt).
Proof.
  unfold TrackUrlCache._background_cache_retrieval, try_except, bind, logger_log, ret.
  destruct (TrackUrlCache._cache_track_url cache track_id url meta w) as [w' [x|e]]; done.
Qed.

(** [cache_track_url] never raises, whatever the fetch does.  When the
    retrieval thread is not done within the wait it returns [None], also when
    the fetch goes on to succeed. *)
Theorem cache_track_url_never_raises cache track_id url meta joined w :
  exists w' x,
    TrackUrlCache.cache_track_url cache track_id url meta joined w = (w', Ok x) /\
    (joined = false -> x = PNone).
Proof.
  unfold TrackUrlCache.cache_track_url. rewrite bind_eq.
  unfold TrackUrlCache.cache_retrieval at 1. unfold try_except at 1.
  destruct (TrackUrlCache._cache_track_url cache track_id url meta w) as [w1 [x|e]].
  - unfold try_except, TrackUrlCache.queue_get. destruct joined.
    + rewrite bind_eq. unfold ret at 1.
      destruct x; try (eexists _, _; split; [reflexivity|done]).
      rewrite bind_eq, background_eq. eexists _, _. split; [reflexivity|done].
    + rewrite bind_eq. unfold raise. rewrite bind_eq, background_eq.
      eexists _, _. split; [reflexivity|done].
  - unfold ret at 1. unfold try_except, TrackUrlCache.queue_get. destruct joined.
    + rewrite bind_eq. unfold ret at 1. rewrite bind_eq, background_eq.
      eexists _, _. split; [reflexivity|done].
    + rewrite bind_eq. unfold raise. rewrite bind_eq, background_eq.
      eexists _, _. split; [reflexivity|done].
Qed.

(** *** Paths *)

(** The metadata record and the payload file of a track never share a
    path, whatever the cache directory, the key and its digest are. *)
Theorem metadata_and_payload_paths_differ cache track_id :
  FileCacheStorage._get_cache_path (TrackUrlCache.storage cache) track_id
  <> track_path cache track_id.
Proof. apply cache_and_track_paths_differ. Qed.

(** [delete_cached_track] never raises and removes the metadata record, so
    that [get_cached_track] returns [None]; the payload file of the track is
    not removed: it stays in the cache directory as it was. *)
Theorem delete_cached_track_keeps_the_payload cache track_id w :
  let w' := fst (TrackUrlCache.delete_cached_track cache track_id w) in
  snd (TrackUrlCache.delete_cached_track cache track_id w) = Ok tt /\
  snd (TrackUrlCache.get_cached_track cache track_id w') = Ok None /\
  lookup_file w' (track_path cache track_id) = lookup_file w (track_path cache track_id).
Proof.
  cbn zeta. unfold TrackUrlCache.delete_cached_track, TrackUrlCache.get_cached_track.
  destruct (delete_removes_only_the_entry_aux (TrackUrlCache.storage cache) track_id w)
    as (Hok & _ & Hother & _ & Hret).
  split; [done|]. split; [done|].
  apply Hother. intros Heq. by apply (cache_and_track_paths_differ _ _ (eq_sym Heq)).
Qed.

(** For a key without a record: when the first [j] requests fail (by a
    [RequestException] or an error status) and the next one is answered,
    with [j < max_retries], [_cache_track_url] returns the path of the payload
    file after exactly [j + 1] requests. *)
Theorem fetch_retries_until_an_answer cache track_id url meta w st body j :
  lookup_file w (FileCacheStorage._get_cache_path (TrackUrlCache.storage cache) track_id)
    = None ->
  (forall i, (i < j)%nat -> request_fails w url i) ->
  transport w (length (requested w) + j) url = Respond st body ->
  ~ 400 <= st < 600 ->
  Z.of_nat j < TrackUrlCache.max_retries cache ->
  exists w',
    TrackUrlCache._cache_track_url cache track_id url meta w
    = (w', Ok (PStr (track_path cache track_id))) /\
    requested w' = requested w ++ replicate (S j) url.
Proof.
  intros Hl Hfails Hok Hst Hleft.
  assert (Hret : FileCacheStorage.retrieve (TrackUrlCache.storage cache) track_id w
                 = (w, Ok None)).
  { rewrite retrieve_eq. cbn zeta. by rewrite Hl. }
  assert (Hout : retrieve_outcome (TrackUrlCache.storage cache) track_id w w None).
  { apply retrieve_absent. by rewrite Hl. }
  assert (Hun : uncached (TrackUrlCache.storage cache) track_id w).
  { intros text d Hl'. congruence. }
  rewrite (inner_miss _ _ _ _ _ _ _ Hret Hout Hun).
  rewrite bind_eq. unfold os_makedirs.
  destruct (dir w) as [files|] eqn:Hd.
  - pose proof (download_loop_retries cache track_id url meta st body files j 0 w
                  Hd Hfails Hok Hst ltac:(lia)) as Hloop.
    rewrite Z.sub_0_r in Hloop. rewrite Hloop.
    eexists. split; [reflexivity|].
    by erewrite requested_after_store by reflexivity.
  - pose proof (download_loop_retries cache track_id url meta st body ∅ j 0
                  (set_dir (Some ∅) w) eq_refl Hfails Hok Hst ltac:(lia)) as Hloop.
    rewrite Z.sub_0_r in Hloop. rewrite Hloop.
    eexists. split; [reflexivity|].
    by erewrite requested_after_store by reflexivity.
Qed.


(** A first fetch that is answered and fits the budget leaves both files in
    the cache directory: the payload file holds the bytes of the response,
    the metadata file holds the record of the track, and nothing was
    removed. *)
Theorem fetch_stores_payload_and_record cache track_id url meta w files st body :
  let metadata := track_metadata cache track_id body meta in
  let doc := PDict (dict_set "stored_at" (PStr (isoformat (clock w (ticks w)))) metadata) in
  let p_meta := FileCacheStorage._get_cache_path (TrackUrlCache.storage cache) track_id in
  dir w = Some files ->
  files !! p_meta = None ->
  transport w (length (requested w)) url = Respond st body ->
  ~ 400 <= st < 600 ->
  1 <= TrackUrlCache.max_retries cache ->
  dir_size (<[track_path cache track_id := body]> files) + str_encoded_len (PDict metadata)
    <= FileCacheStorage.max_total_size_bytes (TrackUrlCache.storage cache) ->
  snd (json_dump_text doc) = None ->
  exists w',
    TrackUrlCache._cache_track_url cache track_id url meta w
    = (w', Ok (PStr (track_path cache track_id))) /\
    lookup_file w' (track_path cache track_id) = Some body /\
    lookup_file w' p_meta = Some (fst (json_dump_text doc)) /\
    removed w' = removed w /\
    requested w' = requested w ++ [url].
Proof.
  cbn zeta. intros Hd Hnone Htr Hst Hmax Hfit Hdump.
  assert (Hl : lookup_file w
                 (FileCacheStorage._get_cache_path (TrackUrlCache.storage cache) track_id)
               = None).
  { unfold lookup_file. by rewrite Hd. }
  rewrite (first_fetch cache track_id url meta w st body Hl Htr Hst Hmax), Hd.
  cbn [default from_option id].
  set (w3 := World (Some (<[track_path cache track_id := body]> files))
                   (clock w) (ticks w) (transport w) (requested w ++ [url]) (removed w)).
  destruct (store_body_run (TrackUrlCache.storage cache) track_id
              (track_metadata cache track_id body meta) w3 _ eq_refl)
    as (files1 & n & rm & gone & _ & Hsame & Hstore).
  destruct (Hsame Hfit) as (-> & -> & ->).
  cbn zeta in Hstore. rewrite store_eq, Hstore. cbn [fst].
  eexists. split; [reflexivity|].
  rewrite !lookup_file_mkw. split.
  - rewrite lookup_insert_ne by apply cache_and_track_paths_differ.
    apply lookup_insert_eq.
  - split; [apply lookup_insert_eq|]. split; reflexivity.
Qed.

(** *** The fields of a fetched track's record *)

Lemma dict_get_update k a b :
  dict_get k (dict_update a b)
  = match dict_get k (rev b) with Some v => Some v | None => dict_get k a end.
Proof.
  unfold dict_update. induction b as [|[k' v'] b IH] using rev_ind; [done|].
  rewrite fold_left_app, rev_unit. cbn.
  destruct (String.eqb_spec k k') as [->|Hne].
  - apply dict_get_set_eq.
  - rewrite dict_get_set_ne by done. exact IH.
Qed.

Lemma track_metadata_field cache track_id body meta k :
  dict_get k (track_metadata cache track_id body meta) = track_field cache track_id body meta k.
Proof.
  unfold track_metadata, track_field. rewrite dict_get_update.
  by destruct meta as [[|kv d]|].
Qed.

(** After a fetch (the lookup has missed, and a request is answered, the
    first one or one after failed ones), for a [max_age_days] that [timedelta]
    accepts, with a record that [json.load] reads back and no expiry between
    the fetch and the lookup, [get_cached_track] returns the record of the
    track: every key of the additional metadata with its value, also where
    it is [track_id], [local_path] or [size_bytes], and these three as the
    cache sets them otherwise.  The budget plays no part. *)
Theorem fetched_record_holds_the_additional_metadata cache track_id url meta w st body j :
  let doc i := PDict (dict_set "stored_at" (PStr (isoformat (clock w i)))
                               (track_metadata cache track_id body meta)) in
  let w' := fst (TrackUrlCache._cache_track_url cache track_id url meta w) in
  lookup_misses (TrackUrlCache.storage cache) track_id w ->
  Z.abs (FileCacheStorage.max_age_days (TrackUrlCache.storage cache)) <= timedelta_max_days ->
  (forall i, (i < j)%nat -> request_fails w url i) ->
  transport w (length (requested w) + j) url = Respond st body ->
  ~ 400 <= st < 600 ->
  Z.of_nat j < TrackUrlCache.max_retries cache ->
  (forall i, json_loads (fst (json_dump_text (doc i))) = Some (doc i)) ->
  (forall i, fromisoformat (isoformat (clock w i)) = Some (clock w i)) ->
  fresh_at_next_reading (TrackUrlCache.storage cache) w' ->
  exists entry,
    snd (TrackUrlCache.get_cached_track cache track_id w') = Ok (Some (PDict entry)) /\
    forall k, k <> "stored_at" ->
      dict_get k entry = track_field cache track_id body meta k.
Proof.
  cbn zeta. intros Hun Hrange Hfails Hok Hst Hleft Hload Hiso Hlive.
  destruct (fetch_run cache track_id url meta w st body j Hun Hfails Hok Hst Hleft)
    as (files1 & n & rm & Hfetch).
  rewrite Hfetch in Hlive |- *. cbn [fst] in Hlive |- *.
  unfold fresh_at_next_reading in Hlive. cbn [clock ticks pred] in Hlive.
  exists (dict_set "stored_at" (PStr (isoformat (clock w n)))
                   (track_metadata cache track_id body meta)). split.
  - unfold TrackUrlCache.get_cached_track.
    assert (Hat : stored_at_of
                    (fst (json_dump_text
                       (PDict (dict_set "stored_at" (PStr (isoformat (clock w n)))
                                        (track_metadata cache track_id body meta)))))
                  = Some (clock w n)).
    { unfold stored_at_of. rewrite (Hload n).
      rewrite dict_get_set_eq. cbn. apply Hiso. }
    rewrite (retrieve_in_range _ track_id _ _ _ _ (lookup_insert_eq _ _ _) Hat (Hload n) Hrange).
    cbn [clock ticks].
    destruct (Z.gtb_spec (clock w (S n) - clock w n)
                (timedelta_days (FileCacheStorage.max_age_days (TrackUrlCache.storage cache))))
      as [Hold|_]; [lia|done].
  - intros k Hk. rewrite dict_get_set_ne by done. apply track_metadata_field.
Qed.

(** [clear_cache] never raises and leaves no file behind: the records and,
    unlike [delete_cached_track], the payload files are gone, and
    [get_cached_track] returns [None] for every track. *)
Theorem clear_cache_removes_records_and_payloads cache w :
  let w' := fst (TrackUrlCache.clear_cache cache w) in
  snd (TrackUrlCache.clear_cache cache w) = Ok tt /\
  (forall p, lookup_file w' p = None) /\
  forall track_id, snd (TrackUrlCache.get_cached_track cache track_id w') = Ok None.
Proof.
  cbn zeta. unfold TrackUrlCache.clear_cache, TrackUrlCache.get_cached_track,
    FileCacheStorage.clear, try_except, bind, shutil_rmtree, os_makedirs, logger_log, ret.
  destruct (dir w) as [files|] eqn:Hd; cbn.
  - split; [done|]. split; [intros p; unfold lookup_file; cbn; apply lookup_empty|].
    intros track_id. rewrite retrieve_eq. cbn zeta. unfold lookup_file. cbn.
    by rewrite lookup_empty.
  - split; [done|]. split; [intros p; unfold lookup_file; by rewrite Hd|].
    intros track_id. rewrite retrieve_eq. cbn zeta. unfold lookup_file. by rewrite Hd.
Qed.
End Proofs.

(** ** The statements on concrete inputs *)

Import Scenario.
#[local] Existing Instance Sample.runtime.

(** *** The runtime *)

Example md5_of_empty : Sample.md5_hexdigest "" = "d41d8cd98f00b204e9800998ecf8427e".
Proof. vm_compute. reflexivity. Qed.

Example md5_of_track_1 : Sample.md5_hexdigest "track_1" = "321cc9532df18a049a09b8587a433415".
Proof. vm_compute. reflexivity. Qed.

Example isoformat_noon : Sample.isoformat noon = "2026-11-04T12:30:15".
Proof. vm_compute. reflexivity. Qed.

Example fromisoformat_noon : Sample.fromisoformat "2026-11-04T12:30:15" = Some noon.
Proof. vm_compute. reflexivity. Qed.

Example record_read_back :
  Sample.json_loads (track_record "track_1" noon)
  = Some (PDict [("track_id", PStr "track_1");
                 ("local_path", PStr ".cache/tracks/321cc9532df18a049a09b8587a433415.track");
                 ("size_bytes", PInt 18);
                 ("stored_at", PStr "2026-11-04T12:30:15")]).
Proof. vm_compute. reflexivity. Qed.

(** *** One cleanup pass over [crowded], under a budget of 200 bytes

    The payload file and the expired record go first, then the older of the
    two live records; the newest record stays, and its [local_path] names a
    file that is gone. *)
Example cleanup_of_crowded :
  let w' := fst (FileCacheStorage._cleanup_oldest_files small_storage crowded) in
  removed w' = [payload_path "track_3"; meta_path "track_1"; meta_path "track_2"] /\
  map_to_list <$> dir w'
  = Some [(meta_path "track_3", track_record "track_3" (noon - timedelta_days 1))] /\
  lookup_file w' (payload_path "track_3") = None.
Proof. cbv zeta. split; [|split]; vm_compute; reflexivity. Qed.

(** *** C1 *)

(** [store] of a payload that [json.dump] cannot write, over an existing
    record: the record is replaced by the text written before the
    exception. *)
Example failed_store_truncates_record :
  let w' := fst (FileCacheStorage.store storage "track_1" unserialisable with_entry) in
  lookup_file with_entry (meta_path "track_1") = Some (record [("url", PStr url)] noon) /\
  snd (FileCacheStorage.store_body storage "track_1" unserialisable with_entry)
  = Raise TypeError /\
  lookup_file w' (meta_path "track_1")
  = Some ("{" +:+ Sample.dquote +:+ "cover" +:+ Sample.dquote +:+ ": ").
Proof. cbv zeta. split; [|split]; vm_compute; reflexivity. Qed.

Lemma store_failure_keeps_entry_fails :
  ~ store_failure_keeps_entry storage "track_1" unserialisable with_entry.
Proof.
  intros [_ Hkeeps].
  destruct (Hkeeps TypeError) as [Hsame|Hgone].
  - vm_compute. reflexivity.
  - vm_compute in Hsame. discriminate Hsame.
  - vm_compute in Hgone. discriminate Hgone.
Qed.

Lemma store_never_raises_witness :
  snd (FileCacheStorage.store_body storage "track_1" unserialisable with_entry)
  = Raise TypeError /\
  snd (FileCacheStorage.store storage "track_1" unserialisable with_entry) = Ok tt.
Proof.
  split.
  - vm_compute. reflexivity.
  - apply (store_never_raises storage "track_1" unserialisable with_entry).
Defined.

(** *** C2 *)


(** *** C3 *)

(** A fetch into an empty directory leaves the record and the payload file
    of the track, 165 bytes in all, 18 of them the payload. *)
Example fetch_leaves_record_and_payload :
  dir fetched = Some track_files /\
  snd (FileCacheStorage._get_total_cache_size storage fetched) = Ok 165 /\
  st_size "Test track content" = 18.
Proof. split; [|split]; vm_compute; reflexivity. Qed.

Lemma payload_adds_nothing_fails : ~ payload_adds_nothing storage fetched.
Proof.
  intros Hnothing.
  specialize (Hnothing track_files (meta_path "track_1") (track_record "track_1" noon)
                [("track_id", PStr "track_1");
                 ("local_path", PStr (payload_path "track_1"));
                 ("size_bytes", PInt 18);
                 ("stored_at", PStr (Sample.isoformat noon))]
                (payload_path "track_1")).
  assert (Hne : snd (FileCacheStorage._get_total_cache_size storage fetched)
                <> Ok (dir_size (delete (payload_path "track_1") track_files))).
  { vm_compute. discriminate. }
  apply Hne, Hnothing.
  - vm_compute. reflexivity.
  - vm_compute. reflexivity.
  - vm_compute. reflexivity.
  - vm_compute. reflexivity.
Qed.

Lemma total_size_counts_every_file_witness :
  dir empty_online = Some ∅ /\
  transport empty_online (length (requested empty_online)) url
    = Respond 200 "Test track content" /\
  FileCacheStorage._get_total_cache_size (TrackUrlCache.storage cache) empty_online
    = (empty_online, Ok (dir_size ∅)) /\
  exists w' files',
    TrackUrlCache._cache_track_url cache "track_1" url None empty_online
    = (w', Ok (PStr (track_path cache "track_1"))) /\
    dir w' = Some files' /\
    files' !! track_path cache "track_1" = Some "Test track content" /\
    FileCacheStorage._get_total_cache_size (TrackUrlCache.storage cache) w'
    = (w', Ok (dir_size files')) /\
    dir_size files'
    = dir_size ∅ + st_size "Test track content"
      + st_size (fst (json_dump_text
                        (PDict (dict_set "stored_at"
                                  (PStr (isoformat (clock empty_online (ticks empty_online))))
                                  (track_metadata cache "track_1" "Test track content"
                                     None))))).
Proof.
  split; [reflexivity|]. split; [reflexivity|].
  apply (total_size_counts_every_file cache "track_1" url None empty_online ∅
           200 "Test track content").
  - reflexivity.
  - vm_compute. reflexivity.
  - vm_compute. reflexivity.
  - reflexivity.
  - lia.
  - vm_compute. discriminate.
  - vm_compute. discriminate.
Defined.

(** *** C4 *)

Lemma store_then_retrieve_returns_fails :
  ~ store_then_retrieve_returns storage "track_1" unserialisable empty_offline.
Proof.
  intros Hreturns.
  destruct Hreturns as (entry & Hentry & _).
  - vm_compute. discriminate.
  - vm_compute in Hentry. discriminate Hentry.
Qed.

Lemma store_then_retrieve_witness :
  dir empty_offline = Some ∅ /\
  Z.abs (FileCacheStorage.max_age_days storage) <= timedelta_max_days /\
  fresh_at_next_reading storage
    (fst (FileCacheStorage.store storage "track_1" [("url", PStr url)] empty_offline)) /\
  exists entry,
    snd (FileCacheStorage.retrieve storage "track_1"
           (fst (FileCacheStorage.store storage "track_1" [("url", PStr url)] empty_offline)))
    = Ok (Some (PDict entry)) /\
    superset_with_stored_at [("url", PStr url)] entry.
Proof.
  split; [reflexivity|]. split; [vm_compute; discriminate|].
  split; [vm_compute; discriminate|].
  apply (store_then_retrieve storage "track_1" [("url", PStr url)] empty_offline ∅).
  - reflexivity.
  - vm_compute. discriminate.
  - intros i. vm_compute. reflexivity.
  - intros i. vm_compute. reflexivity.
  - vm_compute. discriminate.
Defined.

(** *** C5 *)






(** *** C6 *)




(** *** C7 *)

Lemma retrieve_expired_removes_witness :
  let p := meta_path "track_1" in
  let w' := fst (FileCacheStorage.retrieve storage "track_1" with_expired) in
  dir with_expired = Some expired_files /\
  expired_files !! p = Some (track_record "track_1" (noon - timedelta_days 31)) /\
  stored_at_of (track_record "track_1" (noon - timedelta_days 31))
  = Some (noon - timedelta_days 31) /\
  Z.abs (FileCacheStorage.max_age_days storage) <= timedelta_max_days /\
  clock with_expired (ticks with_expired) - (noon - timedelta_days 31) > timedelta_days 30 /\
  snd (FileCacheStorage.retrieve storage "track_1" with_expired) = Ok None /\
  dir w' = Some (delete p expired_files) /\
  removed w' = removed with_expired ++ [p] /\
  snd (os_path_exists p w') = Ok false /\
  forall w'', dir w'' = dir w' -> snd (FileCacheStorage.retrieve storage "track_1" w'') = Ok None.
Proof.
  cbn zeta.
  split; [reflexivity|]. split; [vm_compute; reflexivity|].
  split; [vm_compute; reflexivity|]. split; [vm_compute; discriminate|].
  split; [vm_compute; reflexivity|].
  apply (retrieve_expired_removes storage "track_1" with_expired expired_files
           (track_record "track_1" (noon - timedelta_days 31)) (noon - timedelta_days 31)).
  - reflexivity.
  - vm_compute. reflexivity.
  - vm_compute. reflexivity.
  - vm_compute. discriminate.
  - vm_compute. reflexivity.
Defined.

(** *** C8 *)

(** The first call fetches the track and returns the path of its payload
    file; the second call returns the [local_path] of the extra metadata. *)
Example relocated_second_call :
  let w1 := fst (TrackUrlCache.cache_track_url cache "track_1" url relocating true empty_online) in
  snd (TrackUrlCache.cache_track_url cache "track_1" url relocating true empty_online)
  = Ok (PStr (payload_path "track_1")) /\
  requested w1 = [url] /\
  snd (TrackUrlCache.cache_track_url cache "track_1" url relocating true w1)
  = Ok (PStr "/music/track_1.flac").
Proof. cbv zeta. split; [|split]; vm_compute; reflexivity. Qed.

(** With extra metadata that [json.dump] cannot write, the record of the
    fetch is a truncated file: the second call finds no readable record and
    fetches the track again. *)
Example unserialisable_second_call :
  let w1 := fst (TrackUrlCache.cache_track_url cache "track_1" url (Some unserialisable) true
                   empty_online) in
  snd (TrackUrlCache.cache_track_url cache "track_1" url (Some unserialisable) true
         empty_online)
  = Ok (PStr (payload_path "track_1")) /\
  requested w1 = [url] /\
  requested (fst (TrackUrlCache.cache_track_url cache "track_1" url (Some unserialisable) true
                    w1))
  = [url; url].
Proof. cbv zeta. split; [|split]; vm_compute; reflexivity. Qed.

Lemma second_call_returns_same_path_fails :
  ~ second_call_returns_same_path cache "track_1" url (Some unserialisable) empty_online.
Proof.
  intros Hsame.
  destruct (Hsame ltac:(vm_compute; discriminate)
              (fst (TrackUrlCache.cache_track_url cache "track_1" url (Some unserialisable)
                      true empty_online))
              (payload_path "track_1"))
    as (w2 & Hsecond & Hrq).
  - vm_compute. reflexivity.
  - vm_compute. reflexivity.
  - apply (f_equal (fun wr => requested (fst wr))) in Hsecond. cbn [fst] in Hsecond.
    rewrite <- Hsecond in Hrq.
    destruct unserialisable_second_call as (_ & Hone & Htwo).
    cbv zeta in Hone, Htwo. rewrite Hone, Htwo in Hrq. discriminate Hrq.
Qed.

Lemma cached_track_short_circuits_witness :
  (exists w',
     TrackUrlCache.cache_track_url cache "track_1" url None true with_track
     = (w', Ok (PStr (payload_path "track_1"))) /\
     requested w' = requested with_track) /\
  lookup_file with_expired_online
    (FileCacheStorage._get_cache_path (TrackUrlCache.storage cache) "track_1")
  = Some (track_record "track_1" (noon - timedelta_days 31)) /\
  exists w1 w2,
    TrackUrlCache.cache_track_url cache "track_1" url None true with_expired_online
    = (w1, Ok (PStr (track_path cache "track_1"))) /\
    requested w1 = requested with_expired_online ++ replicate 1 url /\
    TrackUrlCache.cache_track_url cache "track_1" url None true w1
    = (w2, Ok (PStr (track_path cache "track_1"))) /\
    requested w2 = requested w1.
Proof.
  split.
  - apply (proj1 cached_track_short_circuits cache "track_1" url None with_track
             (track_record "track_1" noon)
             [("track_id", PStr "track_1");
              ("local_path", PStr (payload_path "track_1"));
              ("size_bytes", PInt 18);
              ("stored_at", PStr (Sample.isoformat noon))]
             noon (payload_path "track_1")).
    all: vm_compute; first [reflexivity | discriminate].
  - split; [vm_compute; reflexivity|].
    apply (proj2 cached_track_short_circuits cache "track_1" url None with_expired_online
             200 "Test track content" 0%nat).
    + intros d Hd. vm_compute in Hd. discriminate Hd.
    + vm_compute. discriminate.
    + intros i Hi. lia.
    + reflexivity.
    + lia.
    + vm_compute. reflexivity.
    + intros d Hd. discriminate Hd.
    + intros i. vm_compute. reflexivity.
    + intros i. vm_compute. reflexivity.
    + vm_compute. discriminate.
Defined.

(** *** C9 *)

(** A cleanup pass over a directory within its budget: the payload file
    goes, the record that names it stays. *)
Example cleanup_leaves_dangling_record :
  let w' := fst (FileCacheStorage._cleanup_oldest_files storage with_track) in
  removed w' = [payload_path "track_1"] /\
  lookup_file w' (meta_path "track_1") = Some (track_record "track_1" noon) /\
  lookup_file w' (payload_path "track_1") = None.
Proof. cbv zeta. split; [|split]; vm_compute; reflexivity. Qed.

Lemma cleanup_removes_payload_files_witness :
  dir with_track = Some track_files /\
  payload_files_removed storage with_track track_files.
Proof.
  split.
  - reflexivity.
  - apply (cleanup_removes_payload_files storage with_track track_files). reflexivity.
Defined.

(** ** The further properties, at work *)

Lemma delete_removes_only_the_entry_witness :
  snd (FileCacheStorage.delete storage "track_1" with_track) = Ok tt /\
  lookup_file (fst (FileCacheStorage.delete storage "track_1" with_track))
    (FileCacheStorage._get_cache_path storage "track_1") = None /\
  lookup_file (fst (FileCacheStorage.delete storage "track_1" with_track))
    (payload_path "track_1") = Some "Test track content".
Proof.
  destruct (delete_removes_only_the_entry storage "track_1" with_track)
    as (Hok & Hgone & Hother & _).
  split; [exact Hok|]. split; [exact Hgone|].
  rewrite Hother; [vm_compute; reflexivity | vm_compute; discriminate].
Defined.

Lemma clear_leaves_an_empty_directory_witness :
  dir (fst (FileCacheStorage.clear storage with_track)) = Some ∅ /\
  snd (FileCacheStorage.retrieve storage "track_1"
         (fst (FileCacheStorage.clear storage with_track))) = Ok None.
Proof.
  destruct (clear_leaves_an_empty_directory storage with_track) as (_ & Hd & Hmiss).
  split; [exact Hd|]. apply Hmiss. reflexivity.
Defined.

Lemma retrieve_unreadable_is_a_miss_witness :
  (lookup_file with_garbage (FileCacheStorage._get_cache_path storage "track_1")
     ≫= stored_at_of) = None /\
  FileCacheStorage.retrieve storage "track_1" with_garbage = (with_garbage, Ok None).
Proof.
  split; [vm_compute; reflexivity|].
  apply (proj2 (retrieve_unreadable_is_a_miss storage "track_1" with_garbage)).
  vm_compute. reflexivity.
Defined.

Lemma retrieve_live_returns_the_record_witness :
  lookup_file with_track (FileCacheStorage._get_cache_path storage "track_1")
    = Some (track_record "track_1" noon) /\
  stored_at_of (track_record "track_1" noon) = Some noon /\
  Z.abs (FileCacheStorage.max_age_days storage) <= timedelta_max_days /\
  clock with_track (ticks with_track) - noon
    <= timedelta_days (FileCacheStorage.max_age_days storage) /\
  FileCacheStorage.retrieve storage "track_1" with_track
    = (tick with_track,
       Ok (Some (PDict [("track_id", PStr "track_1");
                        ("local_path", PStr (payload_path "track_1"));
                        ("size_bytes", PInt 18);
                        ("stored_at", PStr (Sample.isoformat noon))]))) /\
  lookup_file (tick with_track) (FileCacheStorage._get_cache_path storage "track_1")
    = Some (track_record "track_1" noon).
Proof.
  split; [vm_compute; reflexivity|]. split; [vm_compute; reflexivity|].
  split; [vm_compute; discriminate|]. split; [vm_compute; discriminate|].
  apply (retrieve_live_returns_the_record storage "track_1" with_track
           (track_record "track_1" noon) _ noon).
  - vm_compute. reflexivity.
  - vm_compute. reflexivity.
  - vm_compute. reflexivity.
  - vm_compute. discriminate.
  - vm_compute. discriminate.
Defined.

Lemma retrieve_beyond_timedelta_always_misses_witness :
  Z.abs (FileCacheStorage.max_age_days eternal_storage) > timedelta_max_days /\
  lookup_file with_track (FileCacheStorage._get_cache_path eternal_storage "track_1")
    = Some (track_record "track_1" noon) /\
  snd (FileCacheStorage.retrieve eternal_storage "track_1" with_track) = Ok None /\
  dir (fst (FileCacheStorage.retrieve eternal_storage "track_1" with_track))
    = dir with_track /\
  removed (fst (FileCacheStorage.retrieve eternal_storage "track_1" with_track))
    = removed with_track.
Proof.
  split; [vm_compute; reflexivity|]. split; [vm_compute; reflexivity|].
  apply (retrieve_beyond_timedelta_always_misses eternal_storage "track_1" with_track).
  vm_compute. reflexivity.
Defined.

Lemma store_without_directory_is_dropped_witness :
  dir no_directory = None /\
  FileCacheStorage.store storage "track_1" [("url", PStr url)] no_directory
  = (no_directory, Ok tt).
Proof.
  split; [reflexivity|].
  apply (store_without_directory_is_dropped storage "track_1" [("url", PStr url)] no_directory).
  reflexivity.
Defined.

Lemma store_within_budget_replaces_the_record_witness :
  dir empty_offline = Some ∅ /\
  dir_size ∅ + str_encoded_len (PDict [("url", PStr url)])
    <= FileCacheStorage.max_total_size_bytes storage /\
  FileCacheStorage.store storage "track_1" [("url", PStr url)] empty_offline
  = (mkw (<[FileCacheStorage._get_cache_path storage "track_1"
            := fst (json_dump_text
                      (PDict (dict_set "stored_at"
                                (PStr (isoformat (clock empty_offline (ticks empty_offline))))
                                [("url", PStr url)])))]> ∅)
         (S (ticks empty_offline)) (removed empty_offline) empty_offline, Ok tt).
Proof.
  split; [reflexivity|]. split; [vm_compute; discriminate|].
  apply (store_within_budget_replaces_the_record storage "track_1" [("url", PStr url)]
           empty_offline ∅).
  - reflexivity.
  - vm_compute. discriminate.
  - vm_compute. reflexivity.
Defined.

Lemma cleanup_leaves_directory_within_budget_witness :
  dir crowded = Some crowded_files /\
  0 <= FileCacheStorage.max_total_size_bytes small_storage /\
  exists w' files',
    FileCacheStorage._cleanup_oldest_files small_storage crowded = (w', Ok tt) /\
    dir w' = Some files' /\
    dir_size files' <= FileCacheStorage.max_total_size_bytes small_storage /\
    forall q bytes, files' !! q = Some bytes ->
      crowded_files !! q = Some bytes /\ is_Some (stored_at_of bytes).
Proof.
  split; [reflexivity|]. split; [vm_compute; discriminate|].
  apply (cleanup_leaves_directory_within_budget small_storage crowded crowded_files).
  - reflexivity.
  - vm_compute. discriminate.
Defined.

Lemma cleanup_of_live_directory_removes_nothing_witness :
  dir with_entry = Some entry_files /\
  Z.abs (FileCacheStorage.max_age_days storage) <= timedelta_max_days /\
  dir_size entry_files <= FileCacheStorage.max_total_size_bytes storage /\
  exists n,
    (ticks with_entry <= n <= ticks with_entry + size entry_files)%nat /\
    FileCacheStorage._cleanup_oldest_files storage with_entry
    = (mkw entry_files n (removed with_entry) with_entry, Ok tt).
Proof.
  split; [reflexivity|]. split; [vm_compute; discriminate|].
  split; [vm_compute; discriminate|].
  apply (cleanup_of_live_directory_removes_nothing storage with_entry entry_files).
  - reflexivity.
  - vm_compute. discriminate.
  - intros q bytes Hq. unfold entry_files in Hq.
    apply lookup_singleton_Some in Hq as [_ <-].
    exists noon. split; [vm_compute; reflexivity|].
    intros i _. vm_compute. discriminate.
  - vm_compute. discriminate.
Defined.

Lemma cleanup_beyond_timedelta_removes_every_file_witness :
  dir with_entry = Some entry_files /\
  Z.abs (FileCacheStorage.max_age_days eternal_storage) > timedelta_max_days /\
  exists w',
    FileCacheStorage._cleanup_oldest_files eternal_storage with_entry = (w', Ok tt) /\
    dir w' = Some ∅ /\
    forall q, q ∈ removed w' <-> q ∈ removed with_entry \/ is_Some (entry_files !! q).
Proof.
  split; [reflexivity|]. split; [vm_compute; reflexivity|].
  apply (cleanup_beyond_timedelta_removes_every_file eternal_storage with_entry entry_files).
  - reflexivity.
  - vm_compute. reflexivity.
Defined.

Lemma store_exceeds_budget_by_one_record_at_most_witness :
  dir crowded = Some crowded_files /\
  0 <= FileCacheStorage.max_total_size_bytes small_storage /\
  0 <= str_encoded_len (PDict [("url", PStr url)]) /\
  exists files' text,
    dir (fst (FileCacheStorage.store small_storage "track_4" [("url", PStr url)] crowded))
      = Some files' /\
    files' !! FileCacheStorage._get_cache_path small_storage "track_4" = Some text /\
    dir_size files' <= FileCacheStorage.max_total_size_bytes small_storage + st_size text.
Proof.
  split; [reflexivity|]. split; [vm_compute; discriminate|].
  split; [vm_compute; discriminate|].
  apply (store_exceeds_budget_by_one_record_at_most small_storage "track_4"
           [("url", PStr url)] crowded crowded_files).
  - reflexivity.
  - vm_compute. discriminate.
  - vm_compute. discriminate.
Defined.

Lemma cache_track_url_never_raises_witness :
  exists w',
    TrackUrlCache.cache_track_url cache "track_1" url None false empty_online
    = (w', Ok PNone).
Proof.
  destruct (cache_track_url_never_raises cache "track_1" url None false empty_online)
    as (w' & x & Hrun & Hnone).
  exists w'. rewrite Hrun, (Hnone eq_refl). reflexivity.
Defined.

Lemma metadata_and_payload_paths_differ_witness :
  FileCacheStorage._get_cache_path (TrackUrlCache.storage cache) "track_1"
  <> track_path cache "track_1".
Proof. apply (metadata_and_payload_paths_differ cache "track_1"). Defined.

Lemma delete_cached_track_keeps_the_payload_witness :
  snd (TrackUrlCache.get_cached_track cache "track_1"
         (fst (TrackUrlCache.delete_cached_track cache "track_1" with_track))) = Ok None /\
  lookup_file (fst (TrackUrlCache.delete_cached_track cache "track_1" with_track))
    (track_path cache "track_1") = Some "Test track content".
Proof.
  destruct (delete_cached_track_keeps_the_payload cache "track_1" with_track)
    as (_ & Hmiss & Hkeep).
  split; [exact Hmiss|]. rewrite Hkeep. vm_compute. reflexivity.
Defined.

Lemma fetch_retries_until_an_answer_witness :
  lookup_file (world_of ∅ flaky)
    (FileCacheStorage._get_cache_path (TrackUrlCache.storage cache) "track_1") = None /\
  request_fails (world_of ∅ flaky) url 0 /\
  request_fails (world_of ∅ flaky) url 1 /\
  transport (world_of ∅ flaky) (length (requested (world_of ∅ flaky)) + 2) url
    = Respond 200 "Test track content" /\
  exists w',
    TrackUrlCache._cache_track_url cache "track_1" url None (world_of ∅ flaky)
    = (w', Ok (PStr (track_path cache "track_1"))) /\
    requested w' = requested (world_of ∅ flaky) ++ replicate 3 url.
Proof.
  split; [vm_compute; reflexivity|]. split; [reflexivity|]. split; [reflexivity|].
  split; [reflexivity|].
  apply (fetch_retries_until_an_answer cache "track_1" url None (world_of ∅ flaky)
           200 "Test track content" 2).
  - vm_compute. reflexivity.
  - intros i Hi. destruct i as [|[|i]]; [reflexivity | reflexivity | lia].
  - reflexivity.
  - lia.
  - vm_compute. reflexivity.
Defined.


Lemma fetch_stores_payload_and_record_witness :
  dir empty_online = Some ∅ /\
  transport empty_online (length (requested empty_online)) url
    = Respond 200 "Test track content" /\
  exists w',
    TrackUrlCache._cache_track_url cache "track_1" url None empty_online
    = (w', Ok (PStr (track_path cache "track_1"))) /\
    lookup_file w' (track_path cache "track_1") = Some "Test track content" /\
    lookup_file w' (FileCacheStorage._get_cache_path (TrackUrlCache.storage cache) "track_1")
    = Some (fst (json_dump_text
                   (PDict (dict_set "stored_at"
                             (PStr (isoformat (clock empty_online (ticks empty_online))))
                             (track_metadata cache "track_1" "Test track content" None))))) /\
    removed w' = removed empty_online /\
    requested w' = requested empty_online ++ [url].
Proof.
  split; [reflexivity|]. split; [reflexivity|].
  apply (fetch_stores_payload_and_record cache "track_1" url None empty_online ∅
           200 "Test track content").
  - reflexivity.
  - vm_compute. reflexivity.
  - reflexivity.
  - lia.
  - vm_compute. discriminate.
  - vm_compute. discriminate.
  - vm_compute. reflexivity.
Defined.

Lemma fetched_record_holds_the_additional_metadata_witness :
  lookup_misses (TrackUrlCache.storage cache) "track_1" empty_online /\
  transport empty_online (length (requested empty_online) + 0) url
    = Respond 200 "Test track content" /\
  track_field cache "track_1" "Test track content" tagged "artist"
    = Some (PStr "Test Artist") /\
  exists entry,
    snd (TrackUrlCache.get_cached_track cache "track_1"
           (fst (TrackUrlCache._cache_track_url cache "track_1" url tagged empty_online)))
    = Ok (Some (PDict entry)) /\
    forall k, k <> "stored_at" ->
      dict_get k entry = track_field cache "track_1" "Test track content" tagged k.
Proof.
  split; [intros d Hd; vm_compute in Hd; discriminate Hd|].
  split; [reflexivity|]. split; [reflexivity|].
  apply (fetched_record_holds_the_additional_metadata cache "track_1" url tagged
           empty_online 200 "Test track content" 0%nat).
  - intros d Hd. vm_compute in Hd. discriminate Hd.
  - vm_compute. discriminate.
  - intros i Hi. lia.
  - reflexivity.
  - lia.
  - vm_compute. reflexivity.
  - intros i. vm_compute. reflexivity.
  - intros i. vm_compute. reflexivity.
  - vm_compute. discriminate.
Defined.

Lemma clear_cache_removes_records_and_payloads_witness :
  lookup_file with_track (track_path cache "track_1") = Some "Test track content" /\
  lookup_file (fst (TrackUrlCache.clear_cache cache with_track)) (track_path cache "track_1")
    = None /\
  snd (TrackUrlCache.get_cached_track cache "track_1"
         (fst (TrackUrlCache.clear_cache cache with_track))) = Ok None.
Proof.
  split; [vm_compute; reflexivity|].
  destruct (clear_cache_removes_records_and_payloads cache with_track) as (_ & Hgone & Hmiss).
  split; [apply Hgone | apply Hmiss].
Defined.
